(** * Streaming decision engine of the ORAN xApps: a shallow embedding

    Sources embedded here:
    - [xApps/python/anomaly_detector.py]     (class AnomalyDetectorXapp)
    - [xApps/python/qos_traffic_steerer.py]  (class QoSTrafficSteererXapp)
    - [xApps/python/ml_resource_optimizer.py] (class MLResourceOptimizerXapp)
    - [xApps/python/lib/e2sm_ccc_module.py]  (encode_length, class e2sm_ccc_module)

    Conventions.
    - Python numbers (ints and floats alike) are rationals [Q]; arithmetic is
      exact, so rounding, infinities and nan are outside the model.
      Comparisons are the boolean tests the code performs.
    - A [dict] is a [gmap]; a [collections.deque] is a record carrying its
      immutable [maxlen] and its items, oldest first.
    - Instance attributes live in one state record per class; a method is a
      function from the state (and its arguments) to the new state and the
      returned value.  A method that can raise returns a [result].
    - [time.time()] is an explicit argument of every method that reads it.
    - [np.sqrt] is a parameter of the development ([np_sqrt]). *)

From Stdlib Require Import QArith Qabs Lqa ZArith Lia.
From Stdlib Require Strings.Byte.
From stdpp Require Import gmap strings list fin_maps.

Open Scope Q_scope.

(** ** Python values and library functions *)

Module Py.

(** Exceptions the embedded code can raise. *)
Inductive exn : Type :=
| ZeroDivisionError
| TypeError
| IndexError
| KeyError.

Inductive result (A : Type) : Type :=
| Ok (a : A)
| Raise (e : exn).
Arguments Ok {A} a.
Arguments Raise {A} e.

#[global] Instance result_ret : MRet result := fun A a => Ok a.
#[global] Instance result_bind : MBind result := fun A B k r =>
  match r with
  | Ok a => k a
  | Raise e => Raise e
  end.

(** [a < b] on numbers. *)
Definition ltb (a b : Q) : bool := negb (Qle_bool b a).

(** [a / b]; a zero divisor is the error branch. *)
Definition div (a b : Q) : result Q :=
  if Qeq_bool b 0 then Raise ZeroDivisionError else Ok (a / b).

(** Builtin [sum] over a list of numbers. *)
Definition sum (l : list Q) : Q := fold_left Qplus l 0.

(** Builtin [min(a, b)]: the first argument unless the second is smaller. *)
Definition min (a b : Q) : Q := if ltb b a then b else a.

(** [len(l)] as a number. *)
Definition len {A : Type} (l : list A) : Q := inject_Z (Z.of_nat (length l)).

(** [np.mean]: sum over count.  numpy yields nan on an empty input; every
    call below is made on a list the code has checked to be non-empty
    (or of a guarded minimum length). *)
Definition np_mean (l : list Q) : Q := sum l / len l.

(** [np.var]: population variance, the mean of the squared deviations. *)
Definition np_var (l : list Q) : Q :=
  let m := np_mean l in
  np_mean (map (fun x => (x - m) * (x - m)) l).

(** [l[-n:]]: the last [n] items of a list (all of it when shorter). *)
Definition last_n {A : Type} (n : nat) (l : list A) : list A :=
  drop (length l - n) l.

(** A [dict] from metric names to the reported values. *)
Abbreviation metrics := (gmap string (list Q)).

(** A square root on the rationals that is exact on squares (and rounds
    down on the grid of the denominator elsewhere); it stands for [np.sqrt]
    when an example is run. *)
Definition sqrt_exact (q : Q) : Q :=
  Qmake (Z.sqrt (Qnum q * Zpos (Qden q))) (Qden q).

End Py.

(** ** collections.deque with a maximum length *)

Module Deque.

Record deque (A : Type) : Type := mkDeque {
  maxlen : nat;
  items : list A
}.
Arguments mkDeque {A} maxlen items.
Arguments maxlen {A} d.
Arguments items {A} d.

(** [deque(maxlen=n)] *)
Definition new {A : Type} (n : nat) : deque A := mkDeque n [].

(** [d.append(x)]: add on the right, then drop the leftmost item when the
    length went over [maxlen]. *)
Definition append {A : Type} (d : deque A) (x : A) : deque A :=
  let l := items d ++ [x] in
  mkDeque (maxlen d) (if (maxlen d <? length l)%nat then tail l else l).

(** [list(d)] *)
Definition to_list {A : Type} (d : deque A) : list A := items d.

(** [d[start:stop]]: a deque takes integer indices only; subscripting it
    with a slice raises [TypeError] whatever it holds. *)
Definition getslice {A : Type} (d : deque A) (start stop : option Z)
    : Py.result (list A) :=
  Py.Raise Py.TypeError.

End Deque.

(** ** anomaly_detector.py *)

Module AnomalyDetector.

Import Py Deque.

Record state : Type := mkState {
  metrics_history : gmap string (deque Q);
  max_history_length : nat;
  anomaly_threshold : Q;
  min_history_for_detection : Z;
  alert_cooldown : Q;
  last_alert_time : gmap string Q;
  anomalies_detected : Z;
  anomaly_details : gmap string Z
}.

(** [__init__] *)
Definition init : state := {|
  metrics_history := ∅;
  max_history_length := 200;
  anomaly_threshold := 3.0;
  min_history_for_detection := 30;
  alert_cooldown := 60;
  last_alert_time := ∅;
  anomalies_detected := 0;
  anomaly_details := ∅
|}.

Definition set_metrics_history (st : state) (h : gmap string (deque Q)) : state :=
  {| metrics_history := h;
     max_history_length := max_history_length st;
     anomaly_threshold := anomaly_threshold st;
     min_history_for_detection := min_history_for_detection st;
     alert_cooldown := alert_cooldown st;
     last_alert_time := last_alert_time st;
     anomalies_detected := anomalies_detected st;
     anomaly_details := anomaly_details st |}.

(** The three writes of the alerting branch of [detect_anomaly]. *)
Definition record_alert (st : state) (metric_name : string) (current_time : Q) : state :=
  {| metrics_history := metrics_history st;
     max_history_length := max_history_length st;
     anomaly_threshold := anomaly_threshold st;
     min_history_for_detection := min_history_for_detection st;
     alert_cooldown := alert_cooldown st;
     last_alert_time := <[metric_name := current_time]> (last_alert_time st);
     anomalies_detected := (anomalies_detected st + 1)%Z;
     anomaly_details :=
       <[metric_name := (default 0%Z (anomaly_details st !! metric_name) + 1)%Z]>
         (anomaly_details st) |}.

(** [update_metrics_history(metric_name, value)] *)
Definition update_metrics_history (st : state) (metric_name : string) (value : Q) : state :=
  let d := match metrics_history st !! metric_name with
           | Some d => d
           | None => Deque.new (max_history_length st)
           end in
  set_metrics_history st (<[metric_name := append d value]> (metrics_history st)).

(** A run of [update_metrics_history] calls, first call first. *)
Definition run_updates (st : state) (updates : list (string * Q)) : state :=
  fold_left (fun s u => update_metrics_history s (fst u) (snd u)) updates st.

(** The values a run of updates inserted under [metric_name], in order. *)
Definition inserted (metric_name : string) (updates : list (string * Q)) : list Q :=
  map snd (filter (fun u => fst u = metric_name) updates).

(** What [metrics_history] holds for a key after the values [vs] were
    inserted under it since the key was created with capacity [cap]. *)
Definition window_of (cap : nat) (vs : list Q) : option (deque Q) :=
  match vs with
  | [] => None
  | _ => Some (mkDeque cap (drop (length vs - cap) vs))
  end.

(** [self.max_history_length = n] *)
Definition set_max_history_length (st : state) (n : nat) : state :=
  {| metrics_history := metrics_history st;
     max_history_length := n;
     anomaly_threshold := anomaly_threshold st;
     min_history_for_detection := min_history_for_detection st;
     alert_cooldown := alert_cooldown st;
     last_alert_time := last_alert_time st;
     anomalies_detected := anomalies_detected st;
     anomaly_details := anomaly_details st |}.

(** The state reached from [__init__] by inserting [vs] under one key. *)
Definition after_inserting (metric_name : string) (vs : list Q) : state :=
  run_updates init (map (fun v => (metric_name, v)) vs).

Section Detect.

(** [np.sqrt], as used by [np.std]. *)
Variable np_sqrt : Q -> Q.

(** [np.std]: population standard deviation. *)
Definition np_std (l : list Q) : Q := np_sqrt (np_var l).

(** The z-score [detect_anomaly] computes once its guards are passed. *)
Definition z_score_of (history : list Q) (current_value : Q) : Q :=
  Qabs (current_value - np_mean history) / np_std history.

(** The last alert time [detect_anomaly] reads for a key:
    [self.last_alert_time.get(metric_name, 0)]. *)
Definition last_alert_of (st : state) (metric_name : string) : Q :=
  default 0 (last_alert_time st !! metric_name).

(** [detect_anomaly(metric_name, current_value)]; [current_time] is the
    value [time.time()] returns. *)
Definition detect_anomaly (st : state) (metric_name : string)
    (current_value current_time : Q) : result (state * (bool * Q)) :=
  match metrics_history st !! metric_name with
  | None => Ok (st, (false, 0.0))
  | Some d =>
    let history := to_list d in
    if (Z.of_nat (length history) <? min_history_for_detection st)%Z then
      Ok (st, (false, 0.0))
    else
      let mean_val := np_mean history in
      let std_val := np_std history in
      if Qeq_bool std_val 0 then Ok (st, (false, 0.0))
      else
        z_score ← div (Qabs (current_value - mean_val)) std_val;
        let last_alert := default 0 (last_alert_time st !! metric_name) in
        let is_anomaly := ltb (anomaly_threshold st) z_score in
        let cooldown_expired := ltb (alert_cooldown st) (current_time - last_alert) in
        if is_anomaly && cooldown_expired then
          Ok (record_alert st metric_name current_time, (true, z_score))
        else if is_anomaly then
          Ok (st, (false, z_score))
        else
          Ok (st, (false, z_score))
  end.

End Detect.

End AnomalyDetector.

(** ** qos_traffic_steerer.py *)

Module QoSSteerer.

Import Py Deque.

(** One entry of [self.qos_profiles]. *)
Record qos_profile : Type := mkProfile {
  latency_ms : Q;
  bandwidth_mbps : Q;
  priority : Z
}.

Record state : Type := mkState {
  qos_profiles : gmap string qos_profile;
  ue_traffic_history : gmap Z (deque metrics);
  ue_qos_violations : gmap Z Z;
  cell_load : gmap string Q;
  ue_cell_mapping : gmap Z string;
  load_threshold : Q;
  qos_violation_threshold : Z;
  steering_cooldown : Q;
  last_steering_time : gmap Z Q
}.

(** [__init__] *)
Definition init : state := {|
  qos_profiles :=
    <["voice" := mkProfile 10 0.1 1]>
    (<["video" := mkProfile 30 5 2]>
    (<["gaming" := mkProfile 20 1 1]>
    (<["web" := mkProfile 100 10 3]>
    (<["file_transfer" := mkProfile 500 50 4]> ∅))));
  ue_traffic_history := ∅;
  ue_qos_violations := ∅;
  cell_load := ∅;
  ue_cell_mapping := ∅;
  load_threshold := 0.8;
  qos_violation_threshold := 3;
  steering_cooldown := 120;
  last_steering_time := ∅
|}.

Definition set_ue_traffic_history (st : state) (h : gmap Z (deque metrics)) : state :=
  {| qos_profiles := qos_profiles st;
     ue_traffic_history := h;
     ue_qos_violations := ue_qos_violations st;
     cell_load := cell_load st;
     ue_cell_mapping := ue_cell_mapping st;
     load_threshold := load_threshold st;
     qos_violation_threshold := qos_violation_threshold st;
     steering_cooldown := steering_cooldown st;
     last_steering_time := last_steering_time st |}.

Definition set_ue_qos_violations (st : state) (v : gmap Z Z) : state :=
  {| qos_profiles := qos_profiles st;
     ue_traffic_history := ue_traffic_history st;
     ue_qos_violations := v;
     cell_load := cell_load st;
     ue_cell_mapping := ue_cell_mapping st;
     load_threshold := load_threshold st;
     qos_violation_threshold := qos_violation_threshold st;
     steering_cooldown := steering_cooldown st;
     last_steering_time := last_steering_time st |}.

Definition set_cell_load (st : state) (c : gmap string Q) : state :=
  {| qos_profiles := qos_profiles st;
     ue_traffic_history := ue_traffic_history st;
     ue_qos_violations := ue_qos_violations st;
     cell_load := c;
     ue_cell_mapping := ue_cell_mapping st;
     load_threshold := load_threshold st;
     qos_violation_threshold := qos_violation_threshold st;
     steering_cooldown := steering_cooldown st;
     last_steering_time := last_steering_time st |}.

Definition set_ue_cell_mapping (st : state) (m : gmap Z string) : state :=
  {| qos_profiles := qos_profiles st;
     ue_traffic_history := ue_traffic_history st;
     ue_qos_violations := ue_qos_violations st;
     cell_load := cell_load st;
     ue_cell_mapping := m;
     load_threshold := load_threshold st;
     qos_violation_threshold := qos_violation_threshold st;
     steering_cooldown := steering_cooldown st;
     last_steering_time := last_steering_time st |}.

Definition set_last_steering_time (st : state) (t : gmap Z Q) : state :=
  {| qos_profiles := qos_profiles st;
     ue_traffic_history := ue_traffic_history st;
     ue_qos_violations := ue_qos_violations st;
     cell_load := cell_load st;
     ue_cell_mapping := ue_cell_mapping st;
     load_threshold := load_threshold st;
     qos_violation_threshold := qos_violation_threshold st;
     steering_cooldown := steering_cooldown st;
     last_steering_time := t |}.

(** [self.ue_qos_violations[ue_id]] read on a [defaultdict(int)]: a missing
    key is inserted with 0. *)
Definition read_violations (st : state) (ue_id : Z) : state * Z :=
  match ue_qos_violations st !! ue_id with
  | Some v => (st, v)
  | None => (set_ue_qos_violations st (<[ue_id := 0%Z]> (ue_qos_violations st)), 0%Z)
  end.

(** [self.ue_qos_violations[ue_id] += 1] *)
Definition incr_violations (st : state) (ue_id : Z) : state :=
  let '(st1, v) := read_violations st ue_id in
  set_ue_qos_violations st1 (<[ue_id := (v + 1)%Z]> (ue_qos_violations st1)).

(** The values gathered by the loop of [classify_traffic]: for each entry
    that has [name], its list of values, in order. *)
Definition collect (name : string) (entries : list metrics) : list Q :=
  flat_map (fun m => default [] (m !! name)) entries.

(** The if/elif chain of [classify_traffic]. *)
Definition classify_rules (avg_dl avg_ul dl_variance ul_variance : Q) : string :=
  if ltb avg_dl 0.5 && ltb avg_ul 0.5 && ltb dl_variance 1 && ltb ul_variance 1 then "voice"
  else if ltb 20 avg_dl && ltb 100 dl_variance then "video"
  else if ltb 2 avg_ul && ltb 10 ul_variance then "gaming"
  else if ltb 1 avg_dl && ltb avg_dl 20 then "web"
  else if ltb 50 avg_dl then "file_transfer"
  else "unknown".

(** [np.var(xs) if len(xs) > 1 else 0] *)
Definition var_or_zero (xs : list Q) : Q :=
  if (1 <? length xs)%nat then np_var xs else 0.

(** The conditions of the first three rules, as propositions. *)
Definition voice_rule (avg_dl avg_ul dl_variance ul_variance : Q) : Prop :=
  avg_dl < 0.5 /\ avg_ul < 0.5 /\ dl_variance < 1 /\ ul_variance < 1.
Definition video_rule (avg_dl dl_variance : Q) : Prop :=
  20 < avg_dl /\ 100 < dl_variance.
Definition gaming_rule (avg_ul ul_variance : Q) : Prop :=
  2 < avg_ul /\ 10 < ul_variance.

(** [classify_traffic(ue_id, metrics_data)] *)
Definition classify_traffic (st : state) (ue_id : Z) (metrics_data : metrics)
    : state * string :=
  let d := default (Deque.new 50) (ue_traffic_history st !! ue_id) in
  let d' := append d metrics_data in
  let st' := set_ue_traffic_history st (<[ue_id := d']> (ue_traffic_history st)) in
  if (length (items d') <? 10)%nat then (st', "unknown")
  else
    let history := to_list d' in
    let dl_throughputs := collect "DRB.UEThpDl" (last_n 10 history) in
    let ul_throughputs := collect "DRB.UEThpUl" (last_n 10 history) in
    if (length dl_throughputs =? 0)%nat || (length ul_throughputs =? 0)%nat then
      (st', "unknown")
    else
      let avg_dl := np_mean dl_throughputs in
      let avg_ul := np_mean ul_throughputs in
      let dl_variance := var_or_zero dl_throughputs in
      let ul_variance := var_or_zero ul_throughputs in
      (st', classify_rules avg_dl avg_ul dl_variance ul_variance).

(** [name in metrics_data and metrics_data[name]] followed by the comparison
    of the summed values with [limit]; a missing or empty entry skips the test. *)
Definition throughput_below (metrics_data : metrics) (name : string) (limit : Q) : bool :=
  match metrics_data !! name with
  | Some (v :: values) => ltb (sum (v :: values)) limit
  | _ => false
  end.

(** A run of [classify_traffic] calls for one UE, first snapshot first;
    the state after the last call. *)
Definition classify_many (st : state) (ue_id : Z) (snapshots : list metrics) : state :=
  fold_left (fun s m => fst (classify_traffic s ue_id m)) snapshots st.

(** The throughput a snapshot reports under [name]: the sum of a non-empty
    list of values. *)
Definition reports (metrics_data : metrics) (name : string) (v : Q) : Prop :=
  exists x l, metrics_data !! name = Some (x :: l) /\ v = sum (x :: l).

(** A QoS violation of a snapshot against a required bandwidth. *)
Definition violates (metrics_data : metrics) (bandwidth : Q) : Prop :=
  (exists v, reports metrics_data "DRB.UEThpDl" v /\ v < bandwidth * 0.5)
  \/ (exists v, reports metrics_data "DRB.UEThpUl" v /\ v < bandwidth * 0.3).

(** The violation counter of a UE as the code reads it (0 when absent). *)
Definition violations_of (st : state) (ue_id : Z) : Z :=
  default 0%Z (ue_qos_violations st !! ue_id).

(** [check_qos_violations(ue_id, traffic_type, metrics_data)] *)
Definition check_qos_violations (st : state) (ue_id : Z) (traffic_type : string)
    (metrics_data : metrics) : result (state * bool) :=
  if String.eqb traffic_type "unknown" then Ok (st, false)
  else
    match qos_profiles st !! traffic_type with
    | None => Raise KeyError
    | Some qos_profile =>
      if throughput_below metrics_data "DRB.UEThpDl" (bandwidth_mbps qos_profile * 0.5)
      then Ok (incr_violations st ue_id, true)
      else if throughput_below metrics_data "DRB.UEThpUl" (bandwidth_mbps qos_profile * 0.3)
      then Ok (incr_violations st ue_id, true)
      else Ok (st, false)
    end.

(** The list [load_indicators] built by [evaluate_cell_load]. *)
Definition load_indicators (metrics_data : metrics) : list Q :=
  match metrics_data !! "DRB.UEThpDl" with
  | Some v => [min (sum v / 1000.0) 1.0]
  | None => []
  end ++
  match metrics_data !! "DRB.UEThpUl" with
  | Some v => [min (sum v / 1000.0) 1.0]
  | None => []
  end ++
  match metrics_data !! "RRC.ConnEstabSucc" with
  | Some v =>
    let conn_rate := match v with x :: _ => x | [] => 0 end in
    [if ltb 0 conn_rate then 1.0 - conn_rate / 100.0 else 0]
  | None => []
  end.

(** [evaluate_cell_load(e2_agent_id, metrics_data)] *)
Definition evaluate_cell_load (st : state) (e2_agent_id : string) (metrics_data : metrics)
    : state * Q :=
  match load_indicators metrics_data with
  | [] => (set_cell_load st (<[e2_agent_id := 0.0]> (cell_load st)), 0.0)
  | x :: l =>
    let avg_load := np_mean (x :: l) in
    (set_cell_load st (<[e2_agent_id := avg_load]> (cell_load st)), avg_load)
  end.

(** [self.qos_profiles.get(traffic_type, {'priority': 5})['priority']] *)
Definition priority_of (st : state) (traffic_type : string) : Z :=
  match qos_profiles st !! traffic_type with
  | Some p => priority p
  | None => 5%Z
  end.

(** [should_steer_ue(ue_id, current_cell_load, traffic_type)]; [current_time]
    is the value [time.time()] returns. *)
Definition should_steer_ue (st : state) (ue_id : Z) (current_cell_load : Q)
    (traffic_type : string) (current_time : Q) : state * bool :=
  let last_steer := default 0 (last_steering_time st !! ue_id) in
  if ltb (current_time - last_steer) (steering_cooldown st) then (st, false)
  else
    let '(st1, violations) := read_violations st ue_id in
    if (violations <? qos_violation_threshold st1)%Z then (st1, false)
    else if ltb (load_threshold st1) current_cell_load then
      if (priority_of st1 traffic_type <=? 2)%Z then (st1, true) else (st1, false)
    else (st1, false).

(** The body of the per-UE loop of [my_subscription_callback]: classify,
    check QoS, record the serving cell, decide on steering.  [t_check] is the
    clock read by [should_steer_ue], [t_record] the one read when the steering
    time is stored.  The boolean tells whether the steering recommendation was
    issued. *)
Definition process_ue (st : state) (e2_agent_id : string) (cell_load_now : Q)
    (ue_id : Z) (metrics_summary : metrics) (t_check t_record : Q)
    : result (state * bool) :=
  let '(st1, traffic_type) := classify_traffic st ue_id metrics_summary in
  '(st2, qos_violated) ← check_qos_violations st1 ue_id traffic_type metrics_summary;
  let st3 := set_ue_cell_mapping st2 (<[ue_id := e2_agent_id]> (ue_cell_mapping st2)) in
  let '(st4, steer) := should_steer_ue st3 ue_id cell_load_now traffic_type t_check in
  if steer then
    let st5 := set_last_steering_time st4 (<[ue_id := t_record]> (last_steering_time st4)) in
    Ok (set_ue_qos_violations st5 (<[ue_id := 0%Z]> (ue_qos_violations st5)), true)
  else Ok (st4, false).

(** A run of [process_ue] on one UE of one cell: each sample carries the
    snapshot, the cell load and the two clock readings.  The result lists,
    per sample, whether steering was recommended. *)
Fixpoint process_samples (st : state) (e2_agent_id : string) (ue_id : Z)
    (samples : list (metrics * Q * (Q * Q))) : result (state * list bool) :=
  match samples with
  | [] => Ok (st, [])
  | (metrics_summary, load, (t_check, t_record)) :: rest =>
    '(st1, steer) ← process_ue st e2_agent_id load ue_id metrics_summary t_check t_record;
    '(st2, steers) ← process_samples st1 e2_agent_id ue_id rest;
    Ok (st2, steer :: steers)
  end.

(** The state a run of [process_samples] ends in (the start state when the
    run raises). *)
Definition state_after (st : state) (e2_agent_id : string) (ue_id : Z)
    (samples : list (metrics * Q * (Q * Q))) : state :=
  match process_samples st e2_agent_id ue_id samples with
  | Ok (st', _) => st'
  | Raise _ => st
  end.

(** A voice-like snapshot far below the voice bandwidth floor. *)
Definition starved_voice : metrics :=
  <["DRB.UEThpDl" := [0.01]]> (<["DRB.UEThpUl" := [0.01]]> ∅).

(** Fourteen reports of [starved_voice], three seconds apart from t = 1000,
    on a cell loaded at 0.9. *)
Definition starved_run : list (metrics * Q * (Q * Q)) :=
  map (fun t : Q => (starved_voice, 0.9, (t, t)))
    [1000; 1003; 1006; 1009; 1012; 1015; 1018; 1021; 1024; 1027; 1030; 1033;
     1036; 1039].

(** Every traffic type [classify_traffic] can name has a QoS profile. *)
Definition profiles_cover (st : state) : Prop :=
  Forall (fun t => is_Some (qos_profiles st !! t))
    ["voice"; "video"; "gaming"; "web"; "file_transfer"]%string.

(** The inputs on which every load indicator is a fraction: non-negative
    throughput sums and a connection rate of at most 100. *)
Definition load_inputs_in_range (metrics_data : metrics) : Prop :=
  (forall v, metrics_data !! "DRB.UEThpDl" = Some v -> 0 <= sum v)
  /\ (forall v, metrics_data !! "DRB.UEThpUl" = Some v -> 0 <= sum v)
  /\ (forall x l, metrics_data !! "RRC.ConnEstabSucc" = Some (x :: l) -> x <= 100).

End QoSSteerer.

(** ** ml_resource_optimizer.py *)

Module MLOptimizer.

Import Py Deque.

Record state : Type := mkState {
  ue_metrics_history : gmap Z (deque metrics);
  max_history_length : nat;
  model_trained : bool;
  (** the data the scaler and the regressor were last fitted on *)
  fitted_X : list (list Q);
  fitted_y_prb : list Q;
  training_data_X : list (list Q);
  training_data_y_prb : list Q;
  training_data_y_ho : list Z;
  min_prb_ratio : Q;
  max_prb_ratio_low : Q;
  max_prb_ratio_high : Q
}.

(** [__init__] *)
Definition init : state := {|
  ue_metrics_history := ∅;
  max_history_length := 100;
  model_trained := false;
  fitted_X := [];
  fitted_y_prb := [];
  training_data_X := [];
  training_data_y_prb := [];
  training_data_y_ho := [];
  min_prb_ratio := 1;
  max_prb_ratio_low := 10;
  max_prb_ratio_high := 100
|}.

Definition set_ue_metrics_history (st : state) (h : gmap Z (deque metrics)) : state :=
  {| ue_metrics_history := h;
     max_history_length := max_history_length st;
     model_trained := model_trained st;
     fitted_X := fitted_X st;
     fitted_y_prb := fitted_y_prb st;
     training_data_X := training_data_X st;
     training_data_y_prb := training_data_y_prb st;
     training_data_y_ho := training_data_y_ho st;
     min_prb_ratio := min_prb_ratio st;
     max_prb_ratio_low := max_prb_ratio_low st;
     max_prb_ratio_high := max_prb_ratio_high st |}.

(** The writes of a successful [train_models]: both estimators are fitted on
    the current training data and the flag is raised. *)
Definition set_trained (st : state) : state :=
  {| ue_metrics_history := ue_metrics_history st;
     max_history_length := max_history_length st;
     model_trained := true;
     fitted_X := training_data_X st;
     fitted_y_prb := training_data_y_prb st;
     training_data_X := training_data_X st;
     training_data_y_prb := training_data_y_prb st;
     training_data_y_ho := training_data_y_ho st;
     min_prb_ratio := min_prb_ratio st;
     max_prb_ratio_low := max_prb_ratio_low st;
     max_prb_ratio_high := max_prb_ratio_high st |}.

(** Assigning the three training lists, as a caller that loads recorded
    training data does. *)
Definition set_training_data (st : state) (X : list (list Q)) (y_prb : list Q)
    (y_ho : list Z) : state :=
  {| ue_metrics_history := ue_metrics_history st;
     max_history_length := max_history_length st;
     model_trained := model_trained st;
     fitted_X := fitted_X st;
     fitted_y_prb := fitted_y_prb st;
     training_data_X := X;
     training_data_y_prb := y_prb;
     training_data_y_ho := y_ho;
     min_prb_ratio := min_prb_ratio st;
     max_prb_ratio_low := max_prb_ratio_low st;
     max_prb_ratio_high := max_prb_ratio_high st |}.

(** [train_models()] *)
Definition train_models (st : state) : state * bool :=
  if (length (training_data_X st) <? 20)%nat then (st, false)
  else (set_trained st, true).

(** [update_metrics_history(ue_id, metrics_data)] *)
Definition update_metrics_history (st : state) (ue_id : Z) (metrics_data : metrics) : state :=
  let d := match ue_metrics_history st !! ue_id with
           | Some d => d
           | None => Deque.new (max_history_length st)
           end in
  let st1 := set_ue_metrics_history st (<[ue_id := append d metrics_data]> (ue_metrics_history st)) in
  let n := length (training_data_X st1) in
  if (n mod 50 =? 0)%nat && (20 <? n)%nat then fst (train_models st1) else st1.

(** [m.get(name, [0])[0]] *)
Definition get_first (m : metrics) (name : string) : result Q :=
  match default [0] (m !! name) with
  | x :: _ => Ok x
  | [] => Raise IndexError
  end.

(** [metrics_data.get(name, [0])[0] if name in metrics_data else 0] *)
Definition current_of (metrics_data : metrics) (name : string) : result Q :=
  match metrics_data !! name with
  | Some _ => get_first metrics_data name
  | None => Ok 0
  end.

(** [np.mean([m.get(name, [0])[0] for m in entries])] *)
Definition mean_first (name : string) (entries : list metrics) : result Q :=
  xs ← mapM (fun m => get_first m name) entries;
  Ok (np_mean xs).

Section Predict.

(** The fitted estimators: [regress X y features] is
    [self.prb_predictor.predict(self.scaler.transform(features))[0]] when the
    scaler and the regressor were fitted on [X] and [y]. *)
Variable regress : list (list Q) -> list Q -> list Q -> Q.

(** The feature vector of [predict_prb_setting], lines 112-125; [history] is
    the deque stored for the UE. *)
Definition extract_features (history : deque metrics) (metrics_data : metrics)
    : result (list Q) :=
  current_dl ← current_of metrics_data "DRB.UEThpDl";
  current_ul ← current_of metrics_data "DRB.UEThpUl";
  avg_dl ← (if (0 <? length (items history))%nat
            then (s ← getslice history (Some (-10)%Z) None; mean_first "DRB.UEThpDl" s)
            else Ok 0);
  avg_ul ← (if (0 <? length (items history))%nat
            then (s ← getslice history (Some (-10)%Z) None; mean_first "DRB.UEThpUl" s)
            else Ok 0);
  dl_trend ← (if (5 <? length (items history))%nat
              then (s3 ← getslice history (Some (-3)%Z) None;
                    recent_dl ← mean_first "DRB.UEThpDl" s3;
                    s6 ← getslice history (Some (-6)%Z) (Some (-3)%Z);
                    older_dl ← mean_first "DRB.UEThpDl" s6;
                    Ok (recent_dl - older_dl))
              else Ok 0);
  Ok [current_dl; current_ul; avg_dl; avg_ul; dl_trend; len (items history)].

(** [predict_prb_setting(ue_id, metrics_data)] *)
Definition predict_prb_setting (st : state) (ue_id : Z) (metrics_data : metrics)
    : result Q :=
  if negb (model_trained st) then Ok (max_prb_ratio_high st)
  else
    match ue_metrics_history st !! ue_id with
    | Some history =>
      if (0 <? length (items history))%nat then
        features ← extract_features history metrics_data;
        let predicted_prb := regress (fitted_X st) (fitted_y_prb st) features in
        if ltb ((max_prb_ratio_high st + max_prb_ratio_low st) / 2) predicted_prb
        then Ok (max_prb_ratio_high st)
        else Ok (max_prb_ratio_low st)
      else Ok (max_prb_ratio_high st)
    | None => Ok (max_prb_ratio_high st)
    end.

End Predict.

(** One report of a UE: 30 down, 4 up. *)
Definition report : metrics :=
  <["DRB.UEThpDl" := [30]]> (<["DRB.UEThpUl" := [4]]> ∅).

(** A trained optimizer that has seen one report of UE 0: twenty recorded
    training rows, [train_models()], then [update_metrics_history(0, report)]. *)
Definition trained_with_history : state :=
  update_metrics_history
    (fst (train_models
            (set_training_data init
               (replicate 20 [30; 4; 30; 4; 0; 1]) (replicate 20 100) (replicate 20 0%Z))))
    0 report.

End MLOptimizer.


(** ** lib/e2sm_ccc_module.py *)

Module E2smCcc.

(** Exceptions of the byte-level code. *)
Inductive error : Type :=
| OverflowError
| ValueError.

Inductive outcome (A : Type) : Type :=
| Done (a : A)
| Failed (e : error).
Arguments Done {A} a.
Arguments Failed {A} e.

(** [n.to_bytes(2, byteorder='big')] as a list of ints. *)
Definition to_bytes2 (n : Z) : outcome (list Z) :=
  if ((0 <=? n) && (n <? 65536))%Z then Done [Z.shiftr n 8; Z.land n 255]
  else Failed OverflowError.

(** [encode_length(length)] *)
Definition encode_length (length : Z) : outcome (list Z) :=
  if (length <? 256)%Z then Done [length]
  else
    match to_bytes2 length with
    | Done [b0; b1] => Done [Z.lor (Z.land b0 63) 128; b1]
    | Done b => Done b
    | Failed e => Failed e
    end.

(** The number of bytes [encode_length] produces for a length it accepts. *)
Definition encoded_size (n : Z) : nat := if (n <? 256)%Z then 1 else 2.

(** Reading a length back from its encoding: a single byte is the length,
    two bytes carry it in the low 14 bits. *)
Definition decode_length (b : list Z) : option Z :=
  match b with
  | [n] => Some n
  | [b0; b1] => Some ((b0 - 128) * 256 + b1)%Z
  | _ => None
  end.

(** The attributes of [e2sm_ccc_module] the message builder uses. *)
Record state : Type := mkState {
  ran_func_id : Z;
  requestorID : Z
}.

(** [__init__] *)
Definition init : state := {| ran_func_id := 4; requestorID := 0 |}.

(** [set_ran_func_id(ran_func_id)] *)
Definition set_ran_func_id (st : state) (f : Z) : state :=
  {| ran_func_id := f; requestorID := requestorID st |}.

(** [get_requestor_id()] *)
Definition get_requestor_id (st : state) : state * Z :=
  let r := ((requestorID st + 1) mod 255)%Z in
  ({| ran_func_id := ran_func_id st; requestorID := r |}, r).

(** [k] successive [get_requestor_id()] calls: the final state and the ids
    returned, first call first. *)
Fixpoint draw_ids (k : nat) (st : state) : state * list Z :=
  match k with
  | O => (st, [])
  | S k' =>
    let '(st1, r) := get_requestor_id st in
    let '(st2, rs) := draw_ids k' st1 in
    (st2, r :: rs)
  end.

(** An int a [bytes] object can hold. *)
Definition is_byte (z : Z) : Prop := (0 <= z <= 255)%Z.

(** The items of a [bytes] object as ints. *)
Definition ints_of (b : list Byte.byte) : list Z :=
  map (fun x => Z.of_N (Byte.to_N x)) b.

(** [bytes(x for x in msg)]: every item must be in [range(256)]. *)
Definition bytes_of (msg : list Z) : outcome (list Byte.byte) :=
  match mapM (fun z => if ((0 <=? z) && (z <? 256))%Z
                       then Byte.of_N (Z.to_N z) else None) msg with
  | Some b => Done b
  | None => Failed ValueError
  end.

(** [_build_ric_control_request(control_header, control_msg, ack_request)]:
    the requestor id is drawn first; the list display evaluates the five
    [encode_length] calls left to right; [bytes] checks the items last. *)
Definition build_ric_control_request (st : state) (control_header control_msg : list Byte.byte)
    (ack_request : Z) : state * outcome (list Byte.byte) :=
  let '(st1, rid) := get_requestor_id st in
  let requestor := [0; rid]%Z in
  let ran_func := [0; ran_func_id st1]%Z in
  let control_header_len := Z.of_nat (length control_header) in
  let control_msg_len := Z.of_nat (length control_msg) in
  let total_len := (32 + control_header_len + control_msg_len + 1 + 2)%Z in
  (st1,
   match encode_length total_len with
   | Failed e => Failed e
   | Done e_total =>
   match encode_length (control_header_len + 1) with
   | Failed e => Failed e
   | Done e_h1 =>
   match encode_length control_header_len with
   | Failed e => Failed e
   | Done e_h =>
   match encode_length (control_msg_len + 2) with
   | Failed e => Failed e
   | Done e_m2 =>
   match encode_length control_msg_len with
   | Failed e => Failed e
   | Done e_m =>
     bytes_of
       ([0; 4; 0] ++ e_total ++ [0; 0; 5; 0; 29]
        ++ [0; 5; 0] ++ requestor ++ [0; 0]
        ++ [0; 5; 0; 2] ++ ran_func
        ++ [0; 22; 0] ++ e_h1 ++ e_h ++ ints_of control_header
        ++ [0; 23; 0] ++ e_m2 ++ e_m ++ ints_of control_msg
        ++ [0; 21; 0; 1; Z.shiftl ack_request 6])%Z
   end end end end end).

(** [max(0, min(x, 100))] on ints. *)
Definition clamp_ratio (x : Z) : Z := Z.max 0 (Z.min x 100).

Section Send.

(** [json.dumps(control_header_json).encode('utf-8')] *)
Variable dumps_header : list Byte.byte.
(** [json.dumps(control_msg_json).encode('utf-8')] for the given maximum,
    minimum and dedicated ratios. *)
Variable dumps_msg : Z -> Z -> Z -> list Byte.byte.

(** [send_control_request_style_2_o_rrm_policy_ratio]: the outcome carries
    the payload handed to [rmr_send], or [None] when the request is refused
    with the error print. *)
Definition send_control_request (st : state) (min_prb_ratio max_prb_ratio
    dedicated_prb_ratio ack_request : Z) : state * outcome (option (list Byte.byte)) :=
  let min_prb_ratio := clamp_ratio min_prb_ratio in
  let max_prb_ratio := clamp_ratio max_prb_ratio in
  let dedicated_prb_ratio := clamp_ratio dedicated_prb_ratio in
  if (max_prb_ratio <? min_prb_ratio)%Z then (st, Done None)
  else
    let '(st1, r) :=
      build_ric_control_request st dumps_header
        (dumps_msg max_prb_ratio min_prb_ratio dedicated_prb_ratio) ack_request in
    (st1, match r with
          | Done payload => Done (Some payload)
          | Failed e => Failed e
          end).

End Send.

End E2smCcc.


(** ** anomaly_detector.py: the subscription callback *)

Module AnomalyCallback.

Import Py Deque AnomalyDetector.

(** The sum of the per-key anomaly counters. *)
Definition details_total (st : state) : Z :=
  map_fold (fun (_ : string) (v acc : Z) => (v + acc)%Z) 0%Z (anomaly_details st).

(** The stored window of a key, empty when the key is unknown. *)
Definition window (st : state) (key : string) : list Q :=
  match metrics_history st !! key with
  | Some d => items d
  | None => []
  end.

(** Each alert time lies more than [cooldown] after the one before it,
    the first more than [cooldown] after [prev]. *)
Fixpoint spaced (cooldown prev : Q) (times : list Q) : Prop :=
  match times with
  | [] => True
  | t :: rest => cooldown < t - prev /\ spaced cooldown t rest
  end.

Section Callback.

Variable np_sqrt : Q -> Q.

(** The body of the per-metric loops of [my_subscription_callback] (lines
    98-106 and 123-130) for a list of values: nothing happens for an empty
    list; otherwise the values are summed, the sum is stored under the key
    and then scored.  [key] is the f-string the callback builds. *)
Definition process_metric (st : state) (key : string) (values : list Q) (now : Q)
    : result (state * option (bool * Q)) :=
  match values with
  | [] => Ok (st, None)
  | _ =>
    let current_value := sum values in
    let st1 := update_metrics_history st key current_value in
    '(st2, r) ← detect_anomaly np_sqrt st1 key current_value now;
    Ok (st2, Some r)
  end.

(** A run of per-metric steps: each report carries the key, the values and
    the clock reading.  The result lists, for every scored report, the key,
    the clock reading and what [detect_anomaly] returned. *)
Fixpoint run_metrics (st : state) (reports : list (string * list Q * Q))
    : result (state * list (string * Q * (bool * Q))) :=
  match reports with
  | [] => Ok (st, [])
  | (key, values, now) :: rest =>
    '(st1, r) ← process_metric st key values now;
    '(st2, rs) ← run_metrics st1 rest;
    Ok (st2, match r with
             | Some out => (key, now, out) :: rs
             | None => rs
             end)
  end.

End Callback.

(** The clock readings at which a run alerted for [key], in order. *)
Definition alert_times (key : string) (outs : list (string * Q * (bool * Q))) : list Q :=
  map (fun o => snd (fst o))
    (filter (fun o => fst (fst o) = key /\ fst (snd o) = true) outs).

(** The number of alerts of a run. *)
Definition alert_count (outs : list (string * Q * (bool * Q))) : Z :=
  Z.of_nat (length (filter (fun o => fst (snd o) = true) outs)).

End AnomalyCallback.

(** ** qos_traffic_steerer.py: the subscription callback *)

Module SteererCallback.

Import Py Deque QoSSteerer.

(** The snapshots stored for a UE, oldest first; none for a UE never seen. *)
Definition history_of (st : state) (ue_id : Z) : list metrics :=
  match ue_traffic_history st !! ue_id with
  | Some d => items d
  | None => []
  end.

(** The loop over [meas_data["ueMeasData"].items()] of
    [my_subscription_callback] (lines 167-203): the entries are visited in
    the order of the dict; each carries the UE id, the metrics of the UE and
    the two clock readings of its iteration.  [metrics_summary] is a copy of
    the metrics of the entry.  The result lists, per UE, whether steering
    was recommended. *)
Fixpoint process_ues (st : state) (e2_agent_id : string) (cell_load_now : Q)
    (ues : list (Z * metrics * (Q * Q))) : result (state * list (Z * bool)) :=
  match ues with
  | [] => Ok (st, [])
  | (ue_id, metrics_summary, (t_check, t_record)) :: rest =>
    '(st1, steer) ← process_ue st e2_agent_id cell_load_now ue_id metrics_summary
                      t_check t_record;
    '(st2, steers) ← process_ues st1 e2_agent_id cell_load_now rest;
    Ok (st2, (ue_id, steer) :: steers)
  end.

(** [my_subscription_callback]: [measData] is [meas_data.get("measData")]
    and [ueMeasData] is [meas_data.get("ueMeasData")], each [None] when the
    key is absent.  The cell load is evaluated once, before the loop, on
    [meas_data.get("measData", {})]. *)
Definition my_subscription_callback (st : state) (e2_agent_id : string)
    (measData : option metrics) (ueMeasData : option (list (Z * metrics * (Q * Q))))
    : result (state * list (Z * bool)) :=
  let '(st1, cell_load_now) := evaluate_cell_load st e2_agent_id (default ∅ measData) in
  match ueMeasData with
  | Some ues => process_ues st1 e2_agent_id cell_load_now ues
  | None => Ok (st1, [])
  end.

(** The cell-level metrics carry none of the three load metrics. *)
Definition no_load_metrics (measData : option metrics) : Prop :=
  forall m, measData = Some m ->
    m !! "DRB.UEThpDl" = None /\ m !! "DRB.UEThpUl" = None
    /\ m !! "RRC.ConnEstabSucc" = None.

(** The clock readings of the samples at which a run of [process_samples]
    recommended steering, in order. *)
Fixpoint steer_times (samples : list (metrics * Q * (Q * Q))) (steers : list bool)
    : list (Q * Q) :=
  match samples, steers with
  | (_, _, ts) :: samples', steer :: steers' =>
    if steer then ts :: steer_times samples' steers' else steer_times samples' steers'
  | _, _ => []
  end.

(** Each steering is decided at least [cooldown] after the time recorded by
    the one before it, the first at least [cooldown] after [prev]. *)
Fixpoint steer_spaced (cooldown prev : Q) (times : list (Q * Q)) : Prop :=
  match times with
  | [] => True
  | (t_check, t_record) :: rest =>
    cooldown <= t_check - prev /\ steer_spaced cooldown t_record rest
  end.

(** A report whose last ten snapshots average 30 down with no variance:
    between the web band and the file-transfer band. *)
Definition steady_30 : metrics :=
  <["DRB.UEThpDl" := [30]]> (<["DRB.UEThpUl" := [1]]> ∅).

End SteererCallback.

(** ** ml_resource_optimizer.py: training data, handover prediction and the
    subscription callback *)

Module MLCallback.

Import Py Deque MLOptimizer.

(** [collect_training_data(ue_id, metrics_data, prb_setting, ho_event)]; the
    feature lines 52-67 are those of [predict_prb_setting]. *)
Definition collect_training_data (st : state) (ue_id : Z) (metrics_data : metrics)
    (prb_setting : Q) (ho_event : Z) : result state :=
  match ue_metrics_history st !! ue_id with
  | Some history =>
    features ← extract_features history metrics_data;
    let X := training_data_X st ++ [features] in
    let y_prb := training_data_y_prb st ++ [prb_setting] in
    let y_ho := training_data_y_ho st ++ [ho_event] in
    if (1000 <? length X)%nat
    then Ok (set_training_data st (last_n 500 X) (last_n 500 y_prb) (last_n 500 y_ho))
    else Ok (set_training_data st X y_prb y_ho)
  | None => Ok st
  end.

Section Handover.

(** The handover classifier: [ho_classes] is [len(classes_)] when the
    attribute exists, [ho_probability features] is
    [predict_proba(scaler.transform(features))[0][1]]. *)
Variable ho_classes : option nat.
Variable ho_probability : list Q -> Q.

(** [predict_handover_need(ue_id, metrics_data)] *)
Definition predict_handover_need (st : state) (ue_id : Z) (metrics_data : metrics)
    : result bool :=
  if negb (model_trained st) then Ok false
  else
    match ue_metrics_history st !! ue_id with
    | Some history =>
      if (0 <? length (items history))%nat then
        features ← extract_features history metrics_data;
        match ho_classes with
        | Some n =>
          if (1 <? n)%nat then Ok (ltb 0.7 (ho_probability features)) else Ok false
        | None => Ok false
        end
      else Ok false
    | None => Ok false
    end.

End Handover.

(** How the body of the per-UE loop of [my_subscription_callback] ends. *)
Inductive ended : Type :=
  | Returned (predicted_prb : Q)
  | RaisedBeforeControl (e : exn)
  | ControlRaised (predicted_prb : Q)
  | RaisedAfterControl (predicted_prb : Q) (e : exn).

Section Callback.

Variable regress : list (list Q) -> list Q -> list Q -> Q.

(** [self.e2sm_rc.control_slice_level_prb_quota(e2_agent_id, ue_id,
    min_prb_ratio, max_prb_ratio, dedicated_prb_ratio=100, ack_request=1)]:
    a call into the RC module, which does not touch the optimizer; [true]
    when it returns, [false] when it raises. *)
Variable control : string -> Z -> Q -> Q -> bool.

(** The body of the per-UE loop (lines 204-222) on the metrics of one UE:
    store, predict, send, collect.  The state is the one the optimizer is
    left in, also when the body raises. *)
Definition process_ue (st : state) (e2_agent_id : string) (ue_id : Z)
    (metrics_summary : metrics) : state * ended :=
  let st1 := update_metrics_history st ue_id metrics_summary in
  match predict_prb_setting regress st1 ue_id metrics_summary with
  | Raise e => (st1, RaisedBeforeControl e)
  | Ok predicted_prb =>
    if control e2_agent_id ue_id (min_prb_ratio st1) predicted_prb then
      match collect_training_data st1 ue_id metrics_summary predicted_prb 0 with
      | Raise e => (st1, RaisedAfterControl predicted_prb e)
      | Ok st2 => (st2, Returned predicted_prb)
      end
    else (st1, ControlRaised predicted_prb)
  end.

(** The loop over [meas_data["ueMeasData"].items()]: an exception leaves the
    loop, and the callback, at once. *)
Fixpoint process_ues (st : state) (e2_agent_id : string) (ues : list (Z * metrics))
    : state * list ended :=
  match ues with
  | [] => (st, [])
  | (ue_id, metrics_summary) :: rest =>
    let '(st1, r) := process_ue st e2_agent_id ue_id metrics_summary in
    match r with
    | Returned _ =>
      let '(st2, rs) := process_ues st1 e2_agent_id rest in (st2, r :: rs)
    | _ => (st1, [r])
    end
  end.

(** [my_subscription_callback]; [ueMeasData] is [None] when the indication
    has no such key. *)
Definition my_subscription_callback (st : state) (e2_agent_id : string)
    (ueMeasData : option (list (Z * metrics))) : state * list ended :=
  match ueMeasData with
  | Some ues => process_ues st e2_agent_id ues
  | None => (st, [])
  end.

(** Successive indications, each handled by one call of the callback. *)
Fixpoint run (st : state) (indications : list (string * option (list (Z * metrics))))
    : state * list (list ended) :=
  match indications with
  | [] => (st, [])
  | (e2_agent_id, ueMeasData) :: rest =>
    let '(st1, r) := my_subscription_callback st e2_agent_id ueMeasData in
    let '(st2, rs) := run st1 rest in
    (st2, r :: rs)
  end.

End Callback.

(** The snapshots stored for a UE, oldest first; none for a UE never seen. *)
Definition history_of (st : state) (ue_id : Z) : list metrics :=
  match ue_metrics_history st !! ue_id with
  | Some d => items d
  | None => []
  end.

(** Every stored window, and every window yet to be created, can hold a
    snapshot. *)
Definition windows_hold (st : state) : Prop :=
  (0 < max_history_length st)%nat
  /\ forall ue_id d, ue_metrics_history st !! ue_id = Some d -> (0 < maxlen d)%nat.

(** An optimizer that has not learnt anything. *)
Definition untrained (st : state) : Prop :=
  model_trained st = false /\ training_data_X st = [] /\ windows_hold st.

(** The body of the loop ended in an exception after the control request
    was issued with [predicted_prb]. *)
Definition raised_after (predicted_prb : Q) (r : ended) : Prop :=
  r = ControlRaised predicted_prb \/ exists e, r = RaisedAfterControl predicted_prb e.

End MLCallback.

(** * Properties *)

(** ** Numbers *)

Section NumberFacts.

Import Py.

Lemma ltb_lt (a b : Q) : ltb a b = true <-> a < b.
Proof.
  unfold ltb. rewrite negb_true_iff, <- not_true_iff_false, Qle_bool_iff.
  split; [apply Qnot_le_lt | apply Qlt_not_le].
Qed.

Lemma ltb_ge (a b : Q) : ltb a b = false <-> b <= a.
Proof.
  unfold ltb. rewrite negb_false_iff. apply Qle_bool_iff.
Qed.

#[global] Instance ltb_proper : Proper (Qeq ==> Qeq ==> eq) ltb.
Proof. intros a a' Ha b b' Hb. unfold ltb. now rewrite Ha, Hb. Qed.

Lemma div_nonzero (a b : Q) : ~ b == 0 -> div a b = Ok (a / b).
Proof.
  intros Hb. unfold div.
  destruct (Qeq_bool b 0) eqn:E; [|reflexivity].
  apply Qeq_bool_iff in E. contradiction.
Qed.

End NumberFacts.

(** ** The bounded window *)

Section DequeFacts.

Import Deque.
Context {A : Type}.

Lemma tail_drop (k : nat) (l : list A) : tail (drop k l) = drop (S k) l.
Proof.
  revert k. induction l as [|x l IH]; intros [|k]; simpl; try reflexivity.
  apply IH.
Qed.

Lemma append_maxlen (d : deque A) (x : A) : maxlen (append d x) = maxlen d.
Proof. reflexivity. Qed.

(** Appending to the window of the values seen so far gives the window of
    the values seen so far plus the new one. *)
Lemma append_window (cap : nat) (l : list A) (x : A) :
  append (mkDeque cap (drop (length l - cap) l)) x
  = mkDeque cap (drop (length (l ++ [x]) - cap) (l ++ [x])).
Proof.
  unfold append. simpl. f_equal.
  rewrite <- (drop_app_le l [x]) by lia.
  rewrite length_drop, !length_app. simpl.
  destruct (Nat.ltb_spec cap (length l + 1 - (length l - cap))) as [H|H].
  - rewrite tail_drop. f_equal. lia.
  - f_equal. lia.
Qed.

Lemma append_length_le (d : deque A) (x : A) :
  (length (items d) <= maxlen d)%nat ->
  (length (items (append d x)) <= maxlen d)%nat.
Proof.
  intros H. unfold append. simpl.
  destruct (Nat.ltb_spec (maxlen d) (length (items d ++ [x]))) as [H1|H1]; [|exact H1].
  rewrite length_app in H1. simpl in H1.
  destruct (items d ++ [x]) as [|y l] eqn:E; simpl; [lia|].
  apply (f_equal length) in E. rewrite length_app in E. simpl in E. lia.
Qed.

End DequeFacts.

(** ** anomaly_detector.py: the metric windows *)

Section MetricWindows.

Import Py Deque AnomalyDetector.

Lemma update_same (st : state) (k : string) (v : Q) (vs : list Q) :
  metrics_history st !! k = window_of (max_history_length st) vs ->
  metrics_history (update_metrics_history st k v) !! k
  = window_of (max_history_length st) (vs ++ [v]).
Proof.
  intros H. unfold update_metrics_history. simpl.
  rewrite lookup_insert_eq, H.
  assert (Hne : window_of (max_history_length st) (vs ++ [v])
                = Some (mkDeque (max_history_length st)
                          (drop (length (vs ++ [v]) - max_history_length st) (vs ++ [v])))).
  { unfold window_of. destruct vs; reflexivity. }
  rewrite Hne. f_equal.
  destruct vs as [|a vs'].
  - apply (append_window (max_history_length st) [] v).
  - apply (append_window (max_history_length st) (a :: vs') v).
Qed.

Lemma update_other (st : state) (k k' : string) (v : Q) :
  k' <> k ->
  metrics_history (update_metrics_history st k' v) !! k = metrics_history st !! k.
Proof.
  intros H. unfold update_metrics_history. simpl. now rewrite lookup_insert_ne.
Qed.

Lemma update_capacity (st : state) (k : string) (v : Q) :
  max_history_length (update_metrics_history st k v) = max_history_length st.
Proof. reflexivity. Qed.

Lemma run_updates_snoc (st : state) (us : list (string * Q)) (u : string * Q) :
  run_updates st (us ++ [u]) = update_metrics_history (run_updates st us) (fst u) (snd u).
Proof. unfold run_updates. now rewrite fold_left_app. Qed.

Lemma run_updates_capacity (st : state) (us : list (string * Q)) :
  max_history_length (run_updates st us) = max_history_length st.
Proof.
  induction us as [|u us IH] using rev_ind; [reflexivity|].
  now rewrite run_updates_snoc, update_capacity.
Qed.

Lemma inserted_snoc (k : string) (us : list (string * Q)) (u : string * Q) :
  inserted k (us ++ [u])
  = inserted k us ++ (if decide (fst u = k) then [snd u] else []).
Proof.
  unfold inserted. rewrite filter_app, map_app. f_equal.
  rewrite filter_cons, filter_nil. destruct (decide (fst u = k)); reflexivity.
Qed.

Lemma run_updates_window (st : state) (k : string) (us : list (string * Q)) :
  metrics_history st !! k = None ->
  metrics_history (run_updates st us) !! k
  = window_of (max_history_length st) (inserted k us).
Proof.
  intros Hfresh. induction us as [|u us IH] using rev_ind.
  - exact Hfresh.
  - rewrite run_updates_snoc, inserted_snoc.
    destruct (decide (fst u = k)) as [->|Hne].
    + rewrite <- (run_updates_capacity st us).
      apply update_same. now rewrite run_updates_capacity.
    + rewrite app_nil_r, update_other by exact Hne. exact IH.
Qed.

Lemma update_keeps_maxlen (st : state) (k : string) (v : Q) (d : deque Q) :
  metrics_history st !! k = Some d ->
  exists d', metrics_history (update_metrics_history st k v) !! k = Some d'
             /\ maxlen d' = maxlen d.
Proof.
  intros H. unfold update_metrics_history. simpl. rewrite H, lookup_insert_eq.
  eexists. split; [reflexivity|]. apply append_maxlen.
Qed.

(** C5. A metric series created by [update_metrics_history] never grows
    beyond the capacity configured when it was created, keeps that capacity
    through later updates, and after the values [vs] were inserted under its
    key holds exactly the last [min (length vs) capacity] of them, oldest
    first.  With capacity 5 and 8 updates that is the last 5 values. *)
Theorem C5_series_is_last_values (st : state) (k : string) (us : list (string * Q)) :
  metrics_history st !! k = None ->
  let cap := max_history_length st in
  let vs := inserted k us in
  let n := length vs in
  match metrics_history (run_updates st us) !! k with
  | Some d =>
      maxlen d = cap
      /\ items d = last_n (Nat.min n cap) vs
      /\ length (items d) = Nat.min n cap
      /\ (length (items d) <= cap)%nat
      /\ (forall v, exists d',
            metrics_history (update_metrics_history (run_updates st us) k v) !! k = Some d'
            /\ maxlen d' = cap)
      /\ (cap = 5%nat -> n = 8%nat -> items d = drop 3 vs /\ length (items d) = 5%nat)
  | None => vs = []
  end.
Proof.
  intros Hfresh cap vs n.
  pose proof (run_updates_window st k us Hfresh) as Hw.
  fold cap in Hw. fold vs in Hw. subst n. clearbody cap vs.
  rewrite Hw. destruct vs as [|a vs']; [reflexivity|].
  unfold window_of in *. remember (a :: vs') as l eqn:El.
  simpl maxlen. simpl items. rewrite length_drop. unfold last_n.
  split; [reflexivity|]. split; [f_equal; lia|]. split; [lia|].
  split; [lia|]. split.
  - intros v.
    destruct (update_keeps_maxlen (run_updates st us) k v _ Hw) as [d' [H1 H2]].
    exists d'. split; [exact H1|exact H2].
  - intros Hcap Hn. rewrite Hcap, Hn. split; reflexivity.
Qed.

(** Capacity 5, eight updates of one key interleaved with another key. *)
Lemma C5_series_is_last_values_witness :
  metrics_history (set_max_history_length init 5) !! "0_DRB.UEThpDl" = None
  /\ match metrics_history
            (run_updates (set_max_history_length init 5)
               [("0_DRB.UEThpDl", 1); ("0_DRB.UEThpDl", 2); ("0_DRB.UEThpUl", 50);
                ("0_DRB.UEThpDl", 3); ("0_DRB.UEThpDl", 4); ("0_DRB.UEThpDl", 5);
                ("0_DRB.UEThpUl", 60); ("0_DRB.UEThpDl", 6); ("0_DRB.UEThpDl", 7);
                ("0_DRB.UEThpDl", 8)]) !! "0_DRB.UEThpDl" with
      | Some d => items d = [4; 5; 6; 7; 8] /\ maxlen d = 5%nat
      | None => False
      end.
Proof.
  split; [reflexivity|].
  pose proof (C5_series_is_last_values (set_max_history_length init 5) "0_DRB.UEThpDl"
    [("0_DRB.UEThpDl", 1); ("0_DRB.UEThpDl", 2); ("0_DRB.UEThpUl", 50);
     ("0_DRB.UEThpDl", 3); ("0_DRB.UEThpDl", 4); ("0_DRB.UEThpDl", 5);
     ("0_DRB.UEThpUl", 60); ("0_DRB.UEThpDl", 6); ("0_DRB.UEThpDl", 7);
     ("0_DRB.UEThpDl", 8)] eq_refl) as H.
  cbv zeta in H.
  destruct (metrics_history _ !! "0_DRB.UEThpDl") as [d|].
  - destruct H as (Hm & _ & _ & _ & _ & H5). split; [|exact Hm].
    destruct (H5 eq_refl eq_refl) as [Hi _]. exact Hi.
  - discriminate H.
Defined.

End MetricWindows.

(** ** anomaly_detector.py: scoring and alerting *)

Section Detection.

Import Py Deque AnomalyDetector.

Variable np_sqrt : Q -> Q.

Local Abbreviation detect := (detect_anomaly np_sqrt).
Local Abbreviation std := (np_std np_sqrt).

Local Abbreviation z_score_of := (z_score_of np_sqrt).

Lemma detect_unknown (st : state) (k : string) (x now : Q) :
  metrics_history st !! k = None -> detect st k x now = Ok (st, (false, 0.0)).
Proof. intros H. unfold detect_anomaly. now rewrite H. Qed.

Lemma detect_short (st : state) (k : string) (x now : Q) (d : deque Q) :
  metrics_history st !! k = Some d ->
  (Z.of_nat (length (items d)) < min_history_for_detection st)%Z ->
  detect st k x now = Ok (st, (false, 0.0)).
Proof.
  intros H Hlen. unfold detect_anomaly, to_list. rewrite H.
  apply Z.ltb_lt in Hlen. now rewrite Hlen.
Qed.

Lemma detect_flat (st : state) (k : string) (x now : Q) (d : deque Q) :
  metrics_history st !! k = Some d ->
  std (items d) == 0 ->
  detect st k x now = Ok (st, (false, 0.0)).
Proof.
  intros H Hstd. unfold detect_anomaly, to_list. rewrite H.
  destruct (_ <? _)%Z; [reflexivity|].
  apply Qeq_bool_iff in Hstd. now rewrite Hstd.
Qed.

(** Past the three guards the result is decided by the two comparisons. *)
Lemma detect_scored (st : state) (k : string) (x now : Q) (d : deque Q) :
  metrics_history st !! k = Some d ->
  (min_history_for_detection st <= Z.of_nat (length (items d)))%Z ->
  ~ std (items d) == 0 ->
  detect st k x now =
    if ltb (anomaly_threshold st) (z_score_of (items d) x)
       && ltb (alert_cooldown st) (now - last_alert_of st k)
    then Ok (record_alert st k now, (true, z_score_of (items d) x))
    else Ok (st, (false, z_score_of (items d) x)).
Proof.
  intros H Hlen Hstd. unfold detect_anomaly, to_list. rewrite H.
  apply Z.ltb_ge in Hlen. rewrite Hlen.
  destruct (Qeq_bool (std (items d)) 0) eqn:E.
  { apply Qeq_bool_iff in E. contradiction. }
  rewrite (div_nonzero _ _ Hstd). unfold mbind, result_bind.
  fold (z_score_of (items d) x). fold (last_alert_of st k).
  destruct (ltb (anomaly_threshold st) (z_score_of (items d) x));
    destruct (ltb (alert_cooldown st) (now - last_alert_of st k)); reflexivity.
Qed.

(** [detect_anomaly] always returns: no path raises. *)
Lemma detect_returns (st : state) (k : string) (x now : Q) :
  exists st' b s, detect st k x now = Ok (st', (b, s))
    /\ (b = false -> st' = st)
    /\ (b = true -> st' = record_alert st k now).
Proof.
  destruct (metrics_history st !! k) as [d|] eqn:H.
  2:{ exists st, false, 0.0. rewrite (detect_unknown _ _ _ _ H). now repeat split. }
  destruct (Z.lt_ge_cases (Z.of_nat (length (items d))) (min_history_for_detection st))
    as [Hlen|Hlen].
  { exists st, false, 0.0. rewrite (detect_short _ _ _ _ _ H Hlen). now repeat split. }
  destruct (Qeq_dec (std (items d)) 0) as [Hstd|Hstd].
  { exists st, false, 0.0. rewrite (detect_flat _ _ _ _ _ H Hstd). now repeat split. }
  rewrite (detect_scored _ _ _ _ _ H Hlen Hstd).
  destruct (_ && _).
  - exists (record_alert st k now), true, (z_score_of (items d) x). now repeat split.
  - exists st, false, (z_score_of (items d) x). now repeat split.
Qed.

End Detection.

(** ** Sums, means and variances *)

Section Aggregates.

Import Py.

Lemma fold_plus_shift (l : list Q) (a : Q) :
  fold_left Qplus l a == a + fold_left Qplus l 0.
Proof.
  revert a. induction l as [|x l IH]; intros a; simpl.
  - ring.
  - rewrite (IH (a + x)), (IH (0 + x)). ring.
Qed.

Lemma sum_cons (x : Q) (l : list Q) : sum (x :: l) == x + sum l.
Proof. unfold sum. simpl. rewrite fold_plus_shift. ring. Qed.

Lemma len_cons {A : Type} (x : A) (l : list A) : len (x :: l) == 1 + len l.
Proof.
  unfold len. simpl length. rewrite Nat2Z.inj_succ, <- Z.add_1_l, inject_Z_plus.
  reflexivity.
Qed.

Lemma len_nonneg {A : Type} (l : list A) : 0 <= len l.
Proof.
  unfold len. change 0 with (inject_Z 0). rewrite <- Zle_Qle. lia.
Qed.

Lemma len_pos {A : Type} (l : list A) : l <> [] -> 0 < len l.
Proof.
  intros H. destruct l as [|x l]; [contradiction|].
  rewrite len_cons. pose proof (len_nonneg l). lra.
Qed.

Lemma sum_le (b : Q) (l : list Q) :
  Forall (fun x => x <= b) l -> sum l <= len l * b.
Proof.
  induction 1 as [|x l Hx Hl IH].
  - change (0 <= 0 * b). lra.
  - rewrite sum_cons, len_cons. lra.
Qed.

Lemma sum_ge (a : Q) (l : list Q) :
  Forall (fun x => a <= x) l -> len l * a <= sum l.
Proof.
  induction 1 as [|x l Hx Hl IH].
  - change (0 * a <= 0). lra.
  - rewrite sum_cons, len_cons. lra.
Qed.

Lemma mean_le (b : Q) (l : list Q) :
  l <> [] -> Forall (fun x => x <= b) l -> np_mean l <= b.
Proof.
  intros Hne H. unfold np_mean. apply Qle_shift_div_r.
  - now apply len_pos.
  - rewrite Qmult_comm. now apply sum_le.
Qed.

Lemma mean_ge (a : Q) (l : list Q) :
  l <> [] -> Forall (fun x => a <= x) l -> a <= np_mean l.
Proof.
  intros Hne H. unfold np_mean. apply Qle_shift_div_l.
  - now apply len_pos.
  - rewrite Qmult_comm. now apply sum_ge.
Qed.




End Aggregates.

(** ** anomaly_detector.py: the claims on [detect_anomaly] *)

Section DetectionClaims.

Import Py Deque AnomalyDetector.

Variable np_sqrt : Q -> Q.

Local Abbreviation detect := (detect_anomaly np_sqrt).
Local Abbreviation std := (np_std np_sqrt).
Local Abbreviation score := (z_score_of np_sqrt).



(** C4. Past the guards the score is [|x - mean| / std].  A score above the
    threshold with the cooldown elapsed records the alert and returns
    [(True, score)]; a score above the threshold inside the cooldown returns
    [(False, score)] and changes nothing.  For a window of mean 10 and
    standard deviation 2 and the value 20 the first call alerts with score 5
    and a second call within the cooldown returns false with score 5. *)
Theorem C4_alert_and_cooldown (st : state) (k : string) (x now : Q) (d : deque Q) :
  metrics_history st !! k = Some d ->
  (min_history_for_detection st <= Z.of_nat (length (items d)))%Z ->
  ~ std (items d) == 0 ->
  (anomaly_threshold st < score (items d) x ->
   alert_cooldown st < now - last_alert_of st k ->
   detect st k x now = Ok (record_alert st k now, (true, score (items d) x))
   /\ last_alert_time (record_alert st k now) !! k = Some now)
  /\ (anomaly_threshold st < score (items d) x ->
      ~ alert_cooldown st < now - last_alert_of st k ->
      detect st k x now = Ok (st, (false, score (items d) x)))
  /\ (np_mean (items d) == 10 -> std (items d) == 2 -> x == 20 ->
      anomaly_threshold st == 3.0 ->
      alert_cooldown st < now - last_alert_of st k ->
      score (items d) x == 5.0
      /\ detect st k x now = Ok (record_alert st k now, (true, score (items d) x))
      /\ forall now', now' - now <= alert_cooldown st ->
           detect (record_alert st k now) k x now'
           = Ok (record_alert st k now, (false, score (items d) x))).
Proof.
  intros H Hlen Hstd.
  assert (Hfirst : anomaly_threshold st < score (items d) x ->
                   alert_cooldown st < now - last_alert_of st k ->
                   detect st k x now
                   = Ok (record_alert st k now, (true, score (items d) x))).
  { intros Hs Hc. rewrite (detect_scored _ _ _ _ _ _ H Hlen Hstd).
    apply ltb_lt in Hs. apply ltb_lt in Hc. now rewrite Hs, Hc. }
  split; [|split].
  - intros Hs Hc. split; [now apply Hfirst|]. simpl. apply lookup_insert_eq.
  - intros Hs Hc. rewrite (detect_scored _ _ _ _ _ _ H Hlen Hstd).
    apply ltb_lt in Hs. rewrite Hs.
    assert (Hc' : ltb (alert_cooldown st) (now - last_alert_of st k) = false).
    { apply ltb_ge. apply Qnot_lt_le. exact Hc. }
    now rewrite Hc'.
  - intros Hm Hs Hx Hthr Hc.
    assert (Hscore : score (items d) x == 5.0).
    { unfold z_score_of. rewrite Hm, Hs, Hx. reflexivity. }
    assert (Habove : anomaly_threshold st < score (items d) x).
    { rewrite Hscore, Hthr. reflexivity. }
    split; [exact Hscore|]. split; [now apply Hfirst|].
    intros now' Hnow'.
    assert (H' : metrics_history (record_alert st k now) !! k = Some d) by exact H.
    rewrite (detect_scored _ _ _ _ _ _ H' Hlen Hstd).
    assert (Hc' : ltb (alert_cooldown (record_alert st k now))
                    (now' - last_alert_of (record_alert st k now) k) = false).
    { apply ltb_ge. unfold last_alert_of. simpl. rewrite lookup_insert_eq. simpl.
      exact Hnow'. }
    rewrite Hc', andb_false_r. reflexivity.
Qed.

(** C9. Every call returns; a call that returns false leaves the whole
    state, metric windows included, as it was; a call that returns true
    changes exactly the last alert time of the key, the global counter and
    the counter of the key. *)
Theorem C9_state_changes_only_on_alert (st : state) (k : string) (x now : Q) :
  exists st' b s,
    detect st k x now = Ok (st', (b, s))
    /\ (b = false -> st' = st)
    /\ (b = true ->
          last_alert_time st' = <[k := now]> (last_alert_time st)
          /\ anomalies_detected st' = (anomalies_detected st + 1)%Z
          /\ anomaly_details st'
             = <[k := (default 0%Z (anomaly_details st !! k) + 1)%Z]> (anomaly_details st))
    /\ metrics_history st' = metrics_history st
    /\ max_history_length st' = max_history_length st
    /\ anomaly_threshold st' = anomaly_threshold st
    /\ min_history_for_detection st' = min_history_for_detection st
    /\ alert_cooldown st' = alert_cooldown st.
Proof.
  destruct (detect_returns np_sqrt st k x now) as (st' & b & s & H & Hf & Ht).
  exists st', b, s. split; [exact H|]. split; [exact Hf|].
  destruct b.
  - rewrite (Ht eq_refl). simpl. repeat split; reflexivity.
  - rewrite (Hf eq_refl). split; [discriminate|]. repeat split; reflexivity.
Qed.

End DetectionClaims.

(** ** anomaly_detector.py: the claims run on concrete windows *)

Section DetectionExamples.

Import Py Deque AnomalyDetector.

(** Thirty samples, fifteen 8s then fifteen 12s: mean 10, deviation 2. *)
Lemma C4_alert_and_cooldown_witness :
  let k := "0_DRB.UEThpDl"%string in
  let w := replicate 15 8 ++ replicate 15 12 in
  let st := after_inserting k w in
  metrics_history st !! k = Some (mkDeque 200 w)
  /\ z_score_of sqrt_exact w 20 == 5.0
  /\ detect_anomaly sqrt_exact st k 20 1000
     = Ok (record_alert st k 1000, (true, z_score_of sqrt_exact w 20))
  /\ detect_anomaly sqrt_exact (record_alert st k 1000) k 20 1000
     = Ok (record_alert st k 1000, (false, z_score_of sqrt_exact w 20)).
Proof.
  intros k w st.
  assert (Hl : metrics_history st !! k = Some (mkDeque 200 w)) by (vm_compute; reflexivity).
  assert (Hlen : (min_history_for_detection st <= Z.of_nat (length (items (mkDeque 200 w))))%Z)
    by (vm_compute; discriminate).
  assert (Hstd : ~ np_std sqrt_exact (items (mkDeque 200 w)) == 0)
    by (vm_compute; discriminate).
  destruct (C4_alert_and_cooldown sqrt_exact st k 20 1000 (mkDeque 200 w) Hl Hlen Hstd)
    as (_ & _ & H).
  destruct H as (Hs & H1 & H2).
  - vm_compute; reflexivity.
  - vm_compute; reflexivity.
  - reflexivity.
  - vm_compute; reflexivity.
  - vm_compute; reflexivity.
  - split; [exact Hl|]. split; [exact Hs|]. split; [exact H1|].
    apply H2. vm_compute. discriminate.
Defined.


(** The alerting call and the suppressed call on the window of C4. *)
Lemma C9_state_changes_only_on_alert_witness :
  let k := "0_DRB.UEThpDl"%string in
  let st := after_inserting k (replicate 15 8 ++ replicate 15 12) in
  exists st' b s,
    detect_anomaly sqrt_exact st k 20 1000 = Ok (st', (b, s))
    /\ (b = false -> st' = st)
    /\ metrics_history st' = metrics_history st.
Proof.
  intros k st.
  destruct (C9_state_changes_only_on_alert sqrt_exact st k 20 1000)
    as (st' & b & s & H & Hf & _ & Hm & _).
  exists st', b, s. split; [exact H|]. split; [exact Hf|exact Hm].
Defined.

End DetectionExamples.

(** ** qos_traffic_steerer.py: the QoS check *)

Section QoSCheck.

Import Py Deque QoSSteerer.

Lemma throughput_below_iff (md : metrics) (name : string) (limit : Q) :
  throughput_below md name limit = true <-> exists v, reports md name v /\ v < limit.
Proof.
  unfold throughput_below, reports. split.
  - destruct (md !! name) as [[|x l]|]; try discriminate.
    intros H. apply ltb_lt in H. exists (sum (x :: l)).
    split; [exists x, l; split; reflexivity | exact H].
  - intros (v & (x & l & Hl & ->) & Hv). rewrite Hl. now apply ltb_lt.
Qed.

Lemma incr_violations_eq (st : state) (ue : Z) :
  incr_violations st ue
  = set_ue_qos_violations st (<[ue := (violations_of st ue + 1)%Z]> (ue_qos_violations st)).
Proof.
  unfold incr_violations, read_violations, violations_of.
  destruct (ue_qos_violations st !! ue) as [v|]; simpl; [reflexivity|].
  unfold set_ue_qos_violations. simpl. now rewrite insert_insert_eq.
Qed.

Lemma violations_of_incr (st : state) (ue : Z) :
  violations_of (incr_violations st ue) ue = (violations_of st ue + 1)%Z.
Proof.
  rewrite incr_violations_eq. unfold violations_of at 1. simpl.
  now rewrite lookup_insert_eq.
Qed.

Lemma violations_of_incr_other (st : state) (ue ue' : Z) :
  ue' <> ue -> violations_of (incr_violations st ue) ue' = violations_of st ue'.
Proof.
  intros H. rewrite incr_violations_eq. unfold violations_of. simpl.
  now rewrite lookup_insert_ne.
Qed.

Lemma check_unknown (st : state) (ue : Z) (md : metrics) :
  check_qos_violations st ue "unknown" md = Ok (st, false).
Proof. reflexivity. Qed.

Lemma check_known (st : state) (ue : Z) (t : string) (md : metrics) (p : qos_profile) :
  t <> "unknown"%string ->
  qos_profiles st !! t = Some p ->
  check_qos_violations st ue t md =
    if throughput_below md "DRB.UEThpDl" (bandwidth_mbps p * 0.5)
       || throughput_below md "DRB.UEThpUl" (bandwidth_mbps p * 0.3)
    then Ok (incr_violations st ue, true)
    else Ok (st, false).
Proof.
  intros Ht Hp. unfold check_qos_violations.
  destruct (String.eqb_spec t "unknown"); [contradiction|].
  rewrite Hp. destruct (throughput_below md "DRB.UEThpDl" _); reflexivity.
Qed.

(** C7. With a traffic type that has a profile, a snapshot whose downlink
    throughput is below 50% of the required bandwidth or whose uplink
    throughput is below 30% of it makes the call return true and adds exactly
    one to the counter of the UE, other counters untouched; any other
    snapshot makes it return false with the state unchanged; with the type
    [unknown] the call returns false with the state unchanged. *)
Theorem C7_violation_counts_once (st : state) (ue : Z) (t : string) (md : metrics)
    (p : qos_profile) :
  t <> "unknown"%string ->
  qos_profiles st !! t = Some p ->
  (violates md (bandwidth_mbps p) ->
     check_qos_violations st ue t md = Ok (incr_violations st ue, true)
     /\ violations_of (incr_violations st ue) ue = (violations_of st ue + 1)%Z
     /\ (forall ue', ue' <> ue ->
           violations_of (incr_violations st ue) ue' = violations_of st ue'))
  /\ (~ violates md (bandwidth_mbps p) ->
        check_qos_violations st ue t md = Ok (st, false))
  /\ check_qos_violations st ue "unknown" md = Ok (st, false).
Proof.
  intros Ht Hp. rewrite (check_known st ue t md p Ht Hp).
  assert (Hiff : throughput_below md "DRB.UEThpDl" (bandwidth_mbps p * 0.5)
                 || throughput_below md "DRB.UEThpUl" (bandwidth_mbps p * 0.3) = true
                 <-> violates md (bandwidth_mbps p)).
  { rewrite orb_true_iff, !throughput_below_iff. reflexivity. }
  split; [|split].
  - intros Hv. apply Hiff in Hv. rewrite Hv.
    split; [reflexivity|]. split; [apply violations_of_incr|].
    intros ue'. apply violations_of_incr_other.
  - intros Hv. destruct (_ || _); [|reflexivity].
    exfalso. apply Hv, Hiff. reflexivity.
  - apply check_unknown.
Qed.

(** A voice UE reporting 0.01 down and 0.01 up (both directions below the
    floor), then one reporting 1 and 1. *)
Lemma C7_violation_counts_once_witness :
  let low : metrics := <["DRB.UEThpDl" := [0.01]]> (<["DRB.UEThpUl" := [0.01]]> ∅) in
  let fine : metrics := <["DRB.UEThpDl" := [1]]> (<["DRB.UEThpUl" := [1]]> ∅) in
  (check_qos_violations init 7 "voice" low = Ok (incr_violations init 7, true)
   /\ violations_of (incr_violations init 7) 7 = 1%Z)
  /\ check_qos_violations init 7 "voice" fine = Ok (init, false).
Proof.
  intros low fine. split.
  - destruct (C7_violation_counts_once init 7 "voice" low (mkProfile 10 0.1 1))
      as (H & _ & _); [discriminate | reflexivity |].
    destruct H as (H1 & H2 & _).
    + left. exists 0.01. split; [exists 0.01, []; split; reflexivity | reflexivity].
    + split; [exact H1 | exact H2].
  - destruct (C7_violation_counts_once init 7 "voice" fine (mkProfile 10 0.1 1))
      as (_ & H & _); [discriminate | reflexivity |].
    apply H. intros [(v & (x & l & Hl & ->) & Hv) | (v & (x & l & Hl & ->) & Hv)].
    + vm_compute in Hl. injection Hl as <- <-. vm_compute in Hv. discriminate Hv.
    + vm_compute in Hl. injection Hl as <- <-. vm_compute in Hv. discriminate Hv.
Defined.

End QoSCheck.

(** ** qos_traffic_steerer.py: traffic classification *)

Section Classification.

Import Py Deque QoSSteerer.

Lemma length_append_ge {A : Type} (d : deque A) (x : A) :
  (length (items d) <= length (items (append d x)))%nat.
Proof.
  unfold append. simpl. destruct (_ <? _)%nat.
  - destruct (items d); simpl; [lia|]. rewrite length_app. simpl. lia.
  - rewrite length_app. simpl. lia.
Qed.

Lemma last_append {A : Type} (d : deque A) (x : A) :
  (0 < maxlen d)%nat -> last (items (append d x)) = Some x.
Proof.
  intros Hm. unfold append. simpl.
  destruct (Nat.ltb_spec (maxlen d) (length (items d ++ [x]))) as [H|H].
  - rewrite length_app in H. simpl in H.
    destruct (items d) as [|y l]; simpl in *; [lia|]. apply last_snoc.
  - apply last_snoc.
Qed.

Lemma voice_rule_iff (a b c d : Q) :
  ltb a 0.5 && ltb b 0.5 && ltb c 1 && ltb d 1 = true <-> voice_rule a b c d.
Proof. unfold voice_rule. rewrite !andb_true_iff, !ltb_lt. tauto. Qed.

Lemma video_rule_iff (a c : Q) :
  ltb 20 a && ltb 100 c = true <-> video_rule a c.
Proof. unfold video_rule. rewrite andb_true_iff, !ltb_lt. tauto. Qed.

Lemma gaming_rule_iff (b d : Q) :
  ltb 2 b && ltb 10 d = true <-> gaming_rule b d.
Proof. unfold gaming_rule. rewrite andb_true_iff, !ltb_lt. tauto. Qed.

(** First match wins, in the order voice, video, gaming, web. *)
Lemma classify_rules_order (a b c d : Q) :
  (voice_rule a b c d -> classify_rules a b c d = "voice"%string)
  /\ (~ voice_rule a b c d -> video_rule a c -> classify_rules a b c d = "video"%string)
  /\ (~ voice_rule a b c d -> ~ video_rule a c -> gaming_rule b d ->
      classify_rules a b c d = "gaming"%string)
  /\ (~ voice_rule a b c d -> ~ video_rule a c -> ~ gaming_rule b d ->
      (classify_rules a b c d = "web"%string <-> 1 < a /\ a < 20)).
Proof.
  unfold classify_rules.
  rewrite <- (voice_rule_iff a b c d), <- (video_rule_iff a c), <- (gaming_rule_iff b d).
  destruct (ltb a 0.5 && ltb b 0.5 && ltb c 1 && ltb d 1);
    [refine (conj _ (conj _ (conj _ _))); intros; try reflexivity; congruence|].
  destruct (ltb 20 a && ltb 100 c);
    [refine (conj _ (conj _ (conj _ _))); intros; try reflexivity; congruence|].
  destruct (ltb 2 b && ltb 10 d);
    [refine (conj _ (conj _ (conj _ _))); intros; try reflexivity; congruence|].
  refine (conj _ (conj _ (conj _ _))); try (intros; congruence).
  intros _ _ _.
  destruct (ltb 1 a) eqn:E1; destruct (ltb a 20) eqn:E2; simpl.
  - apply ltb_lt in E1. apply ltb_lt in E2. tauto.
  - apply ltb_ge in E2. split.
    + destruct (ltb 50 a); discriminate.
    + intros [_ H]. exfalso. lra.
  - apply ltb_ge in E1. split.
    + destruct (ltb 50 a); discriminate.
    + intros [H _]. exfalso. lra.
  - apply ltb_ge in E1. split.
    + destruct (ltb 50 a); discriminate.
    + intros [H _]. exfalso. lra.
Qed.

(** What [classify_traffic] stores and returns, guard by guard. *)
Lemma classify_traffic_eq (st : state) (ue : Z) (md : metrics) :
  let d' := append (default (Deque.new 50) (ue_traffic_history st !! ue)) md in
  let st' := set_ue_traffic_history st (<[ue := d']> (ue_traffic_history st)) in
  let dl := collect "DRB.UEThpDl" (last_n 10 (items d')) in
  let ul := collect "DRB.UEThpUl" (last_n 10 (items d')) in
  fst (classify_traffic st ue md) = st'
  /\ ((length (items d') < 10)%nat -> snd (classify_traffic st ue md) = "unknown"%string)
  /\ (dl = [] \/ ul = [] -> snd (classify_traffic st ue md) = "unknown"%string)
  /\ ((10 <= length (items d'))%nat -> dl <> [] -> ul <> [] ->
      snd (classify_traffic st ue md)
      = classify_rules (np_mean dl) (np_mean ul) (var_or_zero dl) (var_or_zero ul)).
Proof.
  intros d' st' dl ul. unfold classify_traffic, to_list.
  fold d'. fold st'. fold dl. fold ul.
  destruct (Nat.ltb_spec (length (items d')) 10) as [H|H].
  - refine (conj _ (conj _ (conj _ _))); intros; try reflexivity. lia.
  - destruct dl as [|x dl'].
    { refine (conj _ (conj _ (conj _ _))); intros; try reflexivity; try lia.
      contradiction. }
    destruct ul as [|y ul'].
    { refine (conj _ (conj _ (conj _ _))); intros; try reflexivity; try lia.
      contradiction. }
    refine (conj _ (conj _ (conj _ _))); intros; try reflexivity; try lia.
    match goal with Hc : _ \/ _ |- _ => destruct Hc as [Hc|Hc]; discriminate Hc end.
Qed.

End Classification.

(** ** qos_traffic_steerer.py: the claims on [classify_traffic] *)

Section ClassificationClaims.

Import Py Deque QoSSteerer.

(** C2, as the code has it.  With at least 10 entries and both throughput
    lists non-empty, the rules are tried in the order voice, video, gaming,
    web and the first match wins; when none of the first three matches, the
    result is [web] exactly when the average downlink throughput is strictly
    between 1 and 20. *)
Theorem C2_web_between_1_and_20_exclusive (st : state) (ue : Z) (md : metrics) :
  let d' := append (default (Deque.new 50) (ue_traffic_history st !! ue)) md in
  let dl := collect "DRB.UEThpDl" (last_n 10 (items d')) in
  let ul := collect "DRB.UEThpUl" (last_n 10 (items d')) in
  let avg_dl := np_mean dl in
  let avg_ul := np_mean ul in
  let var_dl := var_or_zero dl in
  let var_ul := var_or_zero ul in
  let r := snd (classify_traffic st ue md) in
  (10 <= length (items d'))%nat -> dl <> [] -> ul <> [] ->
  (voice_rule avg_dl avg_ul var_dl var_ul -> r = "voice"%string)
  /\ (~ voice_rule avg_dl avg_ul var_dl var_ul -> video_rule avg_dl var_dl ->
      r = "video"%string)
  /\ (~ voice_rule avg_dl avg_ul var_dl var_ul -> ~ video_rule avg_dl var_dl ->
      gaming_rule avg_ul var_ul -> r = "gaming"%string)
  /\ (~ voice_rule avg_dl avg_ul var_dl var_ul -> ~ video_rule avg_dl var_dl ->
      ~ gaming_rule avg_ul var_ul ->
      (r = "web"%string <-> 1 < avg_dl /\ avg_dl < 20)).
Proof.
  intros d' dl ul avg_dl avg_ul var_dl var_ul r Hlen Hdl Hul.
  destruct (classify_traffic_eq st ue md) as (_ & _ & _ & H).
  subst r. rewrite (H Hlen Hdl Hul).
  apply classify_rules_order.
Qed.

(** Ten snapshots of 5 down and 1 up: web. *)
Lemma C2_web_between_1_and_20_exclusive_witness :
  let md : metrics := <["DRB.UEThpDl" := [5]]> (<["DRB.UEThpUl" := [1]]> ∅) in
  let st := classify_many init 0 (replicate 9 md) in
  snd (classify_traffic st 0 md) = "web"%string.
Proof.
  intros md st.
  destruct (C2_web_between_1_and_20_exclusive st 0 md) as (_ & _ & _ & H).
  - vm_compute. lia.
  - vm_compute. discriminate.
  - vm_compute. discriminate.
  - apply H.
    + rewrite <- voice_rule_iff. vm_compute. discriminate.
    + rewrite <- video_rule_iff. vm_compute. discriminate.
    + rewrite <- gaming_rule_iff. vm_compute. discriminate.
    + split; vm_compute; reflexivity.
Defined.

(** C2 as stated fails at the bound: ten snapshots of exactly 1 down and 1 up
    match none of the first three rules and have an average downlink
    throughput of 1, inside [1, 20], yet the result is [unknown]. *)
Lemma C2_counterexample :
  let md : metrics := <["DRB.UEThpDl" := [1]]> (<["DRB.UEThpUl" := [1]]> ∅) in
  let st := classify_many init 0 (replicate 9 md) in
  let d' := append (default (Deque.new 50) (ue_traffic_history st !! 0%Z)) md in
  let dl := collect "DRB.UEThpDl" (last_n 10 (items d')) in
  let ul := collect "DRB.UEThpUl" (last_n 10 (items d')) in
  length (items d') = 10%nat
  /\ ~ voice_rule (np_mean dl) (np_mean ul) (var_or_zero dl) (var_or_zero ul)
  /\ ~ video_rule (np_mean dl) (var_or_zero dl)
  /\ ~ gaming_rule (np_mean ul) (var_or_zero ul)
  /\ 1 <= np_mean dl /\ np_mean dl <= 20
  /\ snd (classify_traffic st 0 md) = "unknown"%string
  /\ snd (classify_traffic st 0 md) <> "web"%string.
Proof.
  intros md st d' dl ul.
  split; [vm_compute; reflexivity|].
  split; [rewrite <- voice_rule_iff; vm_compute; discriminate|].
  split; [rewrite <- video_rule_iff; vm_compute; discriminate|].
  split; [rewrite <- gaming_rule_iff; vm_compute; discriminate|].
  split; [vm_compute; discriminate|].
  split; [vm_compute; discriminate|].
  split; [vm_compute; reflexivity|].
  vm_compute. discriminate.
Qed.

(** C10. Once the history of a UE holds at least 10 entries, a call whose
    10 most recent entries (the new snapshot included) carry no downlink
    values or no uplink values returns [unknown], whatever the values of the
    other metric are; the snapshot has been appended to the stored history
    all the same. *)
Theorem C10_unknown_without_both_directions (st : state) (ue : Z) (md : metrics)
    (d : deque metrics) :
  ue_traffic_history st !! ue = Some d ->
  (10 <= length (items d))%nat ->
  let d' := append d md in
  collect "DRB.UEThpDl" (last_n 10 (items d')) = []
  \/ collect "DRB.UEThpUl" (last_n 10 (items d')) = [] ->
  classify_traffic st ue md
  = (set_ue_traffic_history st (<[ue := d']> (ue_traffic_history st)), "unknown"%string)
  /\ ((0 < maxlen d)%nat -> last (items d') = Some md).
Proof.
  intros Hd Hlen d' Hnone.
  destruct (classify_traffic_eq st ue md) as (Hst & _ & Hun & _).
  rewrite Hd in Hst, Hun. simpl in Hst, Hun.
  split.
  - rewrite (surjective_pairing (classify_traffic st ue md)).
    rewrite Hst, (Hun Hnone). reflexivity.
  - apply last_append.
Qed.

(** Ten snapshots alternating 10 and 50 down with no uplink entry: the
    downlink pattern alone meets the video rule, the result is [unknown]. *)
Lemma C10_unknown_without_both_directions_witness :
  let lo : metrics := <["DRB.UEThpDl" := [10]]> ∅ in
  let hi : metrics := <["DRB.UEThpDl" := [50]]> ∅ in
  let st := classify_many init 0 [lo; hi; lo; hi; lo; hi; lo; hi; lo; hi] in
  let dl := collect "DRB.UEThpDl" [hi; lo; hi; lo; hi; lo; hi; lo; hi; lo] in
  video_rule (np_mean dl) (var_or_zero dl)
  /\ snd (classify_traffic st 0 lo) = "unknown"%string
  /\ (exists d, ue_traffic_history (fst (classify_traffic st 0 lo)) !! 0%Z = Some d
                /\ last (items d) = Some lo /\ length (items d) = 11%nat).
Proof.
  intros lo hi st dl.
  split; [split; vm_compute; reflexivity|].
  destruct (C10_unknown_without_both_directions st 0 lo
              (mkDeque 50 [lo; hi; lo; hi; lo; hi; lo; hi; lo; hi])) as (H1 & H2).
  - vm_compute. reflexivity.
  - vm_compute. lia.
  - right. vm_compute. reflexivity.
  - rewrite H1. split; [reflexivity|].
    exists (append (mkDeque 50 [lo; hi; lo; hi; lo; hi; lo; hi; lo; hi]) lo).
    split; [apply lookup_insert_eq|]. split; [|vm_compute; reflexivity].
    apply H2. vm_compute. lia.
Defined.

End ClassificationClaims.

(** ** qos_traffic_steerer.py: the cell load *)

Section CellLoad.

Import Py Deque QoSSteerer.

Lemma min_one_le (x : Q) : min x 1.0 <= 1.
Proof.
  unfold min. destruct (ltb 1.0 x) eqn:E.
  - lra.
  - apply ltb_ge in E. lra.
Qed.

Lemma min_one_ge (x : Q) : 0 <= x -> 0 <= min x 1.0.
Proof.
  intros H. unfold min. destruct (ltb 1.0 x); lra.
Qed.

Lemma div_1000_nonneg (s : Q) : 0 <= s -> 0 <= s / 1000.0.
Proof.
  intros H. unfold Qdiv. apply Qmult_le_0_compat; [exact H|].
  vm_compute. discriminate.
Qed.

Lemma div_100 (c : Q) : c / 100.0 == c * (1 # 100).
Proof. unfold Qdiv. apply Qmult_comp; reflexivity. Qed.

Lemma conn_indicator_le (c : Q) :
  (if ltb 0 c then 1.0 - c / 100.0 else 0) <= 1.
Proof.
  destruct (ltb 0 c) eqn:E; [|lra].
  apply ltb_lt in E. rewrite div_100. lra.
Qed.

Lemma conn_indicator_ge (c : Q) :
  c <= 100 -> 0 <= (if ltb 0 c then 1.0 - c / 100.0 else 0).
Proof.
  intros H. destruct (ltb 0 c); [rewrite div_100|]; lra.
Qed.

Lemma load_indicators_le (md : metrics) :
  Forall (fun x => x <= 1) (load_indicators md).
Proof.
  unfold load_indicators.
  repeat apply Forall_app_2.
  - destruct (md !! "DRB.UEThpDl"); repeat constructor. apply min_one_le.
  - destruct (md !! "DRB.UEThpUl"); repeat constructor. apply min_one_le.
  - destruct (md !! "RRC.ConnEstabSucc"); repeat constructor. apply conn_indicator_le.
Qed.

Lemma load_indicators_range (md : metrics) :
  load_inputs_in_range md ->
  Forall (fun x => 0 <= x /\ x <= 1) (load_indicators md).
Proof.
  intros (Hdl & Hul & Hc). unfold load_indicators.
  repeat apply Forall_app_2.
  - destruct (md !! "DRB.UEThpDl") as [v|]; repeat constructor.
    + apply min_one_ge, div_1000_nonneg. apply (Hdl v eq_refl).
    + apply min_one_le.
  - destruct (md !! "DRB.UEThpUl") as [v|]; repeat constructor.
    + apply min_one_ge, div_1000_nonneg. apply (Hul v eq_refl).
    + apply min_one_le.
  - destruct (md !! "RRC.ConnEstabSucc") as [[|x l]|]; repeat constructor.
    + apply conn_indicator_ge. lra.
    + apply conn_indicator_le.
    + apply conn_indicator_ge. apply (Hc x l eq_refl).
    + apply conn_indicator_le.
Qed.

Lemma load_indicators_nil (md : metrics) :
  load_indicators md = [] <->
  md !! "DRB.UEThpDl" = None /\ md !! "DRB.UEThpUl" = None
  /\ md !! "RRC.ConnEstabSucc" = None.
Proof.
  unfold load_indicators.
  destruct (md !! "DRB.UEThpDl"), (md !! "DRB.UEThpUl"), (md !! "RRC.ConnEstabSucc");
    simpl; split; try discriminate; try tauto;
    intros (H1 & H2 & H3); discriminate.
Qed.

Lemma evaluate_cell_load_eq (st : state) (id : string) (md : metrics) :
  evaluate_cell_load st id md =
    let load := match load_indicators md with
                | [] => 0.0
                | _ => np_mean (load_indicators md)
                end in
    (set_cell_load st (<[id := load]> (cell_load st)), load).
Proof.
  unfold evaluate_cell_load. destruct (load_indicators md); reflexivity.
Qed.

(** C3, as the code has it.  The cell load is recorded for the cell and is
    the arithmetic mean of the indicators of the load-relevant metrics
    present, 0.0 when none is present.  Every indicator, and so the load, is
    at most 1; indicators and load lie in [0, 1] when the throughput sums are
    non-negative and the connection rate is at most 100. *)
Theorem C3_load_is_mean_capped_above (st : state) (id : string) (md : metrics) :
  let r := evaluate_cell_load st id md in
  cell_load (fst r) !! id = Some (snd r)
  /\ (load_indicators md = [] <->
      md !! "DRB.UEThpDl" = None /\ md !! "DRB.UEThpUl" = None
      /\ md !! "RRC.ConnEstabSucc" = None)
  /\ (load_indicators md = [] -> snd r = 0.0)
  /\ (load_indicators md <> [] -> snd r = np_mean (load_indicators md))
  /\ Forall (fun x => x <= 1) (load_indicators md)
  /\ snd r <= 1
  /\ (load_inputs_in_range md ->
      Forall (fun x => 0 <= x /\ x <= 1) (load_indicators md)
      /\ 0 <= snd r /\ snd r <= 1).
Proof.
  intros r. subst r. rewrite evaluate_cell_load_eq. cbv zeta. cbn [fst snd].
  pose proof (load_indicators_le md) as Hle.
  split; [simpl; apply lookup_insert_eq|].
  split; [apply load_indicators_nil|].
  destruct (load_indicators md) as [|x l] eqn:E.
  - split; [reflexivity|]. split; [contradiction|]. split; [constructor|].
    split; [lra|]. intros _. split; [constructor|]. lra.
  - assert (Hne : x :: l <> []) by discriminate.
    split; [discriminate|]. split; [reflexivity|]. split; [exact Hle|].
    split; [now apply mean_le|].
    intros Hr. pose proof (load_indicators_range md Hr) as Hrange.
    rewrite E in Hrange. split; [exact Hrange|]. split.
    + apply mean_ge; [exact Hne|]. eapply Forall_impl; [exact Hrange|].
      intros y Hy. simpl in Hy. tauto.
    + now apply mean_le.
Qed.

(** Throughput sums of 500 and 2000 and a connection rate of 80. *)
Lemma C3_load_is_mean_capped_above_witness :
  let md : metrics :=
    <["DRB.UEThpDl" := [300; 200]]>
    (<["DRB.UEThpUl" := [2000]]> (<["RRC.ConnEstabSucc" := [80]]> ∅)) in
  load_indicators md = [min (sum [300; 200] / 1000.0) 1.0;
                        min (sum [2000] / 1000.0) 1.0;
                        (if ltb 0 80 then 1.0 - 80 / 100.0 else 0)]
  /\ 0 <= snd (evaluate_cell_load init "gnb1" md)
  /\ snd (evaluate_cell_load init "gnb1" md) <= 1.
Proof.
  intros md. split; [vm_compute; reflexivity|].
  destruct (C3_load_is_mean_capped_above init "gnb1" md) as (_ & _ & _ & _ & _ & _ & H).
  apply H. unfold load_inputs_in_range.
  assert (Hdl : md !! "DRB.UEThpDl" = Some [300; 200]) by (vm_compute; reflexivity).
  assert (Hul : md !! "DRB.UEThpUl" = Some [2000]) by (vm_compute; reflexivity).
  assert (Hc : md !! "RRC.ConnEstabSucc" = Some [80]) by (vm_compute; reflexivity).
  rewrite Hdl, Hul, Hc. split; [|split].
  - intros v Hv. injection Hv as <-. vm_compute. discriminate.
  - intros v Hv. injection Hv as <-. vm_compute. discriminate.
  - intros x l Hv. injection Hv as <- <-. vm_compute. discriminate.
Defined.

(** C3 as stated fails below: a connection rate of 200 gives the indicator
    [1 - 200/100 = -1], outside [0, 1], and a load of -1. *)
Lemma C3_counterexample :
  let md : metrics := <["RRC.ConnEstabSucc" := [200]]> ∅ in
  load_indicators md = [1.0 - 200 / 100.0]
  /\ ~ Forall (fun x => 0 <= x /\ x <= 1) (load_indicators md)
  /\ snd (evaluate_cell_load init "gnb1" md) == -1
  /\ ~ 0 <= snd (evaluate_cell_load init "gnb1" md).
Proof.
  intros md.
  assert (Hi : load_indicators md = [1.0 - 200 / 100.0]) by (vm_compute; reflexivity).
  split; [exact Hi|]. split.
  - rewrite Hi. intros H. apply Forall_cons in H. destruct H as ((H & _) & _).
    revert H. vm_compute. intros H. apply H. reflexivity.
  - split; vm_compute; [reflexivity|]. intros H. apply H. reflexivity.
Qed.

End CellLoad.

(** ** qos_traffic_steerer.py: the steering decision *)

Section Steering.

Import Py Deque QoSSteerer.

Lemma classify_rules_range (a b c d : Q) :
  In (classify_rules a b c d)
     ["voice"; "video"; "gaming"; "web"; "file_transfer"; "unknown"]%string.
Proof.
  unfold classify_rules.
  repeat match goal with
         | |- context [if ?b then _ else _] => destruct b
         end; simpl; tauto.
Qed.

Lemma classify_traffic_range (st : state) (ue : Z) (md : metrics) :
  In (snd (classify_traffic st ue md))
     ["voice"; "video"; "gaming"; "web"; "file_transfer"; "unknown"]%string.
Proof.
  unfold classify_traffic.
  destruct (_ <? 10)%nat; [simpl; tauto|].
  destruct (_ || _); [simpl; tauto|].
  apply classify_rules_range.
Qed.

(** [classify_traffic] writes the traffic history only. *)
Lemma classify_traffic_frame (st : state) (ue : Z) (md : metrics) :
  let st1 := fst (classify_traffic st ue md) in
  qos_profiles st1 = qos_profiles st
  /\ ue_qos_violations st1 = ue_qos_violations st
  /\ load_threshold st1 = load_threshold st
  /\ qos_violation_threshold st1 = qos_violation_threshold st
  /\ steering_cooldown st1 = steering_cooldown st
  /\ last_steering_time st1 = last_steering_time st.
Proof.
  destruct (classify_traffic_eq st ue md) as (H & _).
  cbv zeta in *. rewrite H. simpl. repeat split; reflexivity.
Qed.

(** With a profile for every type the classifier can name, the QoS check
    returns, and it writes the violation counters only. *)
Lemma check_returns (st : state) (ue : Z) (t : string) (md : metrics) :
  Forall (fun t => is_Some (qos_profiles st !! t))
    ["voice"; "video"; "gaming"; "web"; "file_transfer"]%string ->
  In t ["voice"; "video"; "gaming"; "web"; "file_transfer"; "unknown"]%string ->
  exists st2 v,
    check_qos_violations st ue t md = Ok (st2, v)
    /\ qos_profiles st2 = qos_profiles st
    /\ load_threshold st2 = load_threshold st
    /\ qos_violation_threshold st2 = qos_violation_threshold st
    /\ steering_cooldown st2 = steering_cooldown st
    /\ last_steering_time st2 = last_steering_time st.
Proof.
  intros Hcover Ht.
  destruct (String.eqb_spec t "unknown") as [->|Hne].
  { exists st, false. rewrite check_unknown. repeat split; reflexivity. }
  assert (Hp : is_Some (qos_profiles st !! t)).
  { rewrite Forall_forall in Hcover. apply Hcover.
    rewrite list_elem_of_In. simpl in *. intuition congruence. }
  destruct Hp as [p Hp]. rewrite (check_known st ue t md p Hne Hp).
  destruct (_ || _).
  - exists (incr_violations st ue), true. rewrite incr_violations_eq.
    simpl. repeat split; reflexivity.
  - exists st, false. repeat split; reflexivity.
Qed.

(** The decision of [should_steer_ue] and what it leaves in the state. *)
Lemma should_steer_spec (st : state) (ue : Z) (load : Q) (t : string) (now : Q) :
  let r := should_steer_ue st ue load t now in
  (snd r = true <->
     (qos_violation_threshold st <= violations_of st ue)%Z
     /\ load_threshold st < load
     /\ (priority_of st t <= 2)%Z
     /\ steering_cooldown st <= now - default 0 (last_steering_time st !! ue))
  /\ violations_of (fst r) ue = violations_of st ue
  /\ last_steering_time (fst r) = last_steering_time st.
Proof.
  unfold should_steer_ue, read_violations, violations_of.
  destruct (ltb (now - default 0 (last_steering_time st !! ue)) (steering_cooldown st))
    eqn:Ec.
  { apply ltb_lt in Ec. simpl. split; [|split; reflexivity].
    split; [discriminate|]. intros (_ & _ & _ & H). exfalso. lra. }
  apply ltb_ge in Ec.
  destruct (ue_qos_violations st !! ue) as [v|] eqn:Ev; simpl.
  - destruct (Z.ltb_spec v (qos_violation_threshold st)) as [Hv|Hv]; simpl.
    { split; [|split; [now rewrite Ev | reflexivity]].
      split; [discriminate|]. intros (H & _). lia. }
    destruct (ltb (load_threshold st) load) eqn:El; simpl.
    2:{ apply ltb_ge in El. split; [|split; [now rewrite Ev | reflexivity]].
        split; [discriminate|]. intros (_ & H & _). exfalso. lra. }
    apply ltb_lt in El.
    destruct (Z.leb_spec (priority_of st t) 2) as [Hp|Hp]; simpl.
    + split; [|split; [now rewrite Ev | reflexivity]]. tauto.
    + split; [|split; [now rewrite Ev | reflexivity]].
      split; [discriminate|]. intros (_ & _ & H & _). lia.
  - destruct (Z.ltb_spec 0 (qos_violation_threshold st)) as [Hv|Hv]; simpl.
    { rewrite lookup_insert_eq. split; [|split; reflexivity].
      split; [discriminate|]. intros (H & _). lia. }
    unfold priority_of. simpl.
    destruct (ltb (load_threshold st) load) eqn:El; simpl.
    2:{ apply ltb_ge in El. rewrite lookup_insert_eq.
        split; [|split; reflexivity].
        split; [discriminate|]. intros (_ & H & _). exfalso. lra. }
    apply ltb_lt in El. fold (priority_of st t).
    destruct (Z.leb_spec (priority_of st t) 2) as [Hp|Hp]; simpl;
      rewrite lookup_insert_eq.
    + split; [|split; reflexivity]. tauto.
    + split; [|split; reflexivity].
      split; [discriminate|]. intros (_ & _ & H & _). lia.
Qed.

(** C1, as the code has it.  For every sample of every UE the steering
    recommendation is issued exactly when the violation count (the current
    sample included) has reached the violation threshold, the cell load
    exceeds the load threshold, the traffic type has priority at most 2, and
    at least [steering_cooldown] seconds have passed since the last steering
    of the UE (the elapsed time is not below the cooldown); when it is
    issued the violation counter of the UE is reset to 0 and the steering
    time is recorded. *)
Theorem C1_steering_decision (st : state) (e2_agent_id : string) (load : Q) (ue : Z)
    (md : metrics) (t_check t_record : Q) :
  profiles_cover st ->
  exists st1 tt st2 v st' steer,
    classify_traffic st ue md = (st1, tt)
    /\ check_qos_violations st1 ue tt md = Ok (st2, v)
    /\ process_ue st e2_agent_id load ue md t_check t_record = Ok (st', steer)
    /\ (steer = true <->
          (qos_violation_threshold st <= violations_of st2 ue)%Z
          /\ load_threshold st < load
          /\ (priority_of st tt <= 2)%Z
          /\ steering_cooldown st
             <= t_check - default 0 (last_steering_time st !! ue))
    /\ (steer = true ->
          ue_qos_violations st' !! ue = Some 0%Z
          /\ last_steering_time st' !! ue = Some t_record)
    /\ (steer = false ->
          violations_of st' ue = violations_of st2 ue
          /\ last_steering_time st' = last_steering_time st).
Proof.
  intros Hcover. unfold profiles_cover in Hcover.
  destruct (classify_traffic st ue md) as [st1 tt] eqn:Ec.
  pose proof (classify_traffic_frame st ue md) as Hfr.
  pose proof (classify_traffic_range st ue md) as Hrange.
  rewrite Ec in Hfr, Hrange. cbv zeta in Hfr. simpl in Hfr, Hrange.
  destruct Hfr as (Hq1 & _ & Hl1 & Hv1 & Hc1 & Hs1).
  rewrite <- Hq1 in Hcover.
  destruct (check_returns st1 ue tt md Hcover Hrange)
    as (st2 & v & Hcheck & Hq2 & Hl2 & Hv2 & Hc2 & Hs2).
  set (st3 := set_ue_cell_mapping st2 (<[ue := e2_agent_id]> (ue_cell_mapping st2))).
  pose proof (should_steer_spec st3 ue load tt t_check) as Hsp.
  cbv zeta in Hsp.
  assert (Hp : process_ue st e2_agent_id load ue md t_check t_record =
    let '(st4, steer) := should_steer_ue st3 ue load tt t_check in
    if steer then
      let st5 := set_last_steering_time st4
                   (<[ue := t_record]> (last_steering_time st4)) in
      Ok (set_ue_qos_violations st5 (<[ue := 0%Z]> (ue_qos_violations st5)), true)
    else Ok (st4, false)).
  { unfold process_ue. rewrite Ec, Hcheck. reflexivity. }
  destruct (should_steer_ue st3 ue load tt t_check) as [st4 steer] eqn:Es.
  simpl in Hsp. destruct Hsp as (Hiff & Hviol & Hlast).
  assert (Hiff' : steer = true <->
          (qos_violation_threshold st <= violations_of st2 ue)%Z
          /\ load_threshold st < load
          /\ (priority_of st tt <= 2)%Z
          /\ steering_cooldown st
             <= t_check - default 0 (last_steering_time st !! ue)).
  { rewrite Hiff. subst st3. unfold violations_of, priority_of. simpl.
    rewrite Hv2, Hv1, Hl2, Hl1, Hq2, Hq1, Hc2, Hc1, Hs2, Hs1. reflexivity. }
  destruct steer.
  - eexists st1, tt, st2, v, _, true.
    split; [reflexivity|]. split; [exact Hcheck|]. split; [exact Hp|].
    split; [exact Hiff'|]. split; [|discriminate].
    intros _. simpl. rewrite !lookup_insert_eq. split; reflexivity.
  - exists st1, tt, st2, v, st4, false.
    split; [reflexivity|]. split; [exact Hcheck|]. split; [exact Hp|].
    split; [exact Hiff'|]. split; [discriminate|].
    intros _. split.
    + rewrite Hviol. subst st3. reflexivity.
    + rewrite Hlast. subst st3. simpl. rewrite Hs2, Hs1. reflexivity.
Qed.

(** The run [starved_run]: the UE is steered at t = 1033, and a report at
    t = 1200, past the cooldown, steers it again, resetting the counter. *)
Lemma C1_steering_decision_witness :
  let st := state_after init "gnb1" 0 starved_run in
  profiles_cover st
  /\ exists st', process_ue st "gnb1" 0.9 0 starved_voice 1200 1201 = Ok (st', true)
       /\ ue_qos_violations st' !! 0%Z = Some 0%Z
       /\ last_steering_time st' !! 0%Z = Some 1201.
Proof.
  intros st.
  assert (Hcover : profiles_cover st).
  { unfold profiles_cover.
    repeat (constructor; [eexists; vm_compute; reflexivity|]).
    constructor. }
  split; [exact Hcover|].
  destruct (C1_steering_decision st "gnb1" 0.9 0 starved_voice 1200 1201 Hcover)
    as (st1 & tt & st2 & v & st' & steer & _ & _ & Hp & _ & Ht & _).
  assert (Hrun : exists s, process_ue st "gnb1" 0.9 0 starved_voice 1200 1201 = Ok (s, true))
    by (eexists; vm_compute; reflexivity).
  destruct Hrun as [s Hs]. rewrite Hp in Hs. injection Hs as _ Hsteer.
  subst steer. exists st'. split; [exact Hp|]. apply Ht. reflexivity.
Defined.

(** C1 as stated fails at the bound of the cooldown.  After [starved_run] the
    UE was last steered at t = 1033 and has three violations again with the
    report at t = 1153; the elapsed time is exactly 120, not strictly greater
    than the cooldown of 120, and the recommendation is issued. *)
Lemma C1_counterexample :
  let st := state_after init "gnb1" 0 starved_run in
  process_samples init "gnb1" 0 starved_run
  = Ok (st, [false; false; false; false; false; false; false; false; false; false;
             false; true; false; false])
  /\ last_steering_time st !! 0%Z = Some 1033
  /\ steering_cooldown st = 120
  /\ ~ (steering_cooldown st < 1153 - 1033)
  /\ exists st', process_ue st "gnb1" 0.9 0 starved_voice 1153 1153 = Ok (st', true).
Proof.
  intros st.
  split; [vm_compute; reflexivity|].
  split; [vm_compute; reflexivity|].
  split; [vm_compute; reflexivity|].
  split; [vm_compute; discriminate|].
  eexists. vm_compute. reflexivity.
Qed.

End Steering.

(** ** ml_resource_optimizer.py: the PRB prediction *)

Section Prediction.

Import Py Deque MLOptimizer.

Variable regress : list (list Q) -> list Q -> list Q -> Q.

Local Abbreviation predict := (predict_prb_setting regress).

(** Without a trained model, or without history for the UE, the prediction
    is [max_prb_ratio_high]. *)
Lemma predict_default (st : state) (ue : Z) (md : metrics) :
  model_trained st = false
  \/ ue_metrics_history st !! ue = None
  \/ (exists d, ue_metrics_history st !! ue = Some d /\ items d = []) ->
  predict st ue md = Ok (max_prb_ratio_high st).
Proof.
  unfold predict_prb_setting. intros [H | [H | (d & H & Hd)]].
  - now rewrite H.
  - rewrite H. now destruct (model_trained st).
  - rewrite H, Hd. now destruct (model_trained st).
Qed.

(** Every value [predict_prb_setting] returns is one of the two bounds. *)
Lemma predict_two_values (st : state) (ue : Z) (md : metrics) (r : Q) :
  predict st ue md = Ok r ->
  r = max_prb_ratio_high st \/ r = max_prb_ratio_low st.
Proof.
  unfold predict_prb_setting.
  destruct (model_trained st); simpl; [|intros [= <-]; now left].
  destruct (ue_metrics_history st !! ue) as [d|]; [|intros [= <-]; now left].
  destruct (0 <? length (items d))%nat; [|intros [= <-]; now left].
  destruct (extract_features d md) as [f|e]; simpl; [|discriminate].
  destruct (ltb _ _); intros [= <-]; [now left | now right].
Qed.

(** The feature extraction slices the stored deque, so it raises as soon as
    the history is non-empty. *)
Lemma extract_features_raises (d : deque metrics) (md : metrics) :
  items d <> [] -> exists e, extract_features d md = Raise e.
Proof.
  intros Hd. unfold extract_features.
  destruct (current_of md "DRB.UEThpDl") as [dl|e]; simpl; [|now exists e].
  destruct (current_of md "DRB.UEThpUl") as [ul|e]; simpl; [|now exists e].
  destruct (items d) as [|x l]; [contradiction|]. simpl.
  exists TypeError. reflexivity.
Qed.

Lemma predict_raises_when_trained (st : state) (ue : Z) (md : metrics) (d : deque metrics) :
  model_trained st = true ->
  ue_metrics_history st !! ue = Some d ->
  items d <> [] ->
  exists e, predict st ue md = Raise e.
Proof.
  intros Ht Hd Hne. unfold predict_prb_setting. rewrite Ht, Hd. simpl.
  destruct (items d) as [|x l] eqn:E; [contradiction|]. simpl.
  destruct (extract_features_raises d md) as [e He]; [now rewrite E|].
  rewrite He. now exists e.
Qed.

(** C8, on the code.  On the trained optimizer that has stored one report of
    UE 0, [predict_prb_setting(0, report)] raises [TypeError] (line 115
    slices the deque) and returns neither bound; before training the same
    call returns the default, [max_prb_ratio_high]. *)
Theorem C8_trained_prediction_raises :
  model_trained trained_with_history = true
  /\ (exists d, ue_metrics_history trained_with_history !! 0%Z = Some d
                /\ items d = [report])
  /\ predict trained_with_history 0 report = Raise TypeError
  /\ predict trained_with_history 0 report <> Ok (max_prb_ratio_low trained_with_history)
  /\ predict trained_with_history 0 report <> Ok (max_prb_ratio_high trained_with_history)
  /\ predict (update_metrics_history init 0 report) 0 report = Ok 100.
Proof.
  assert (H : predict trained_with_history 0 report = Raise TypeError)
    by (vm_compute; reflexivity).
  split; [vm_compute; reflexivity|].
  split; [eexists; split; vm_compute; reflexivity|].
  split; [exact H|]. rewrite H.
  split; [discriminate|]. split; [discriminate|].
  vm_compute. reflexivity.
Qed.

End Prediction.

(** ** lib/e2sm_ccc_module.py: length encoding *)

Section LengthEncoding.

Import E2smCcc.

Local Open Scope Z_scope.

Lemma tag_byte (b : Z) : Z.lor (Z.land b 63) 128 = 128 + b mod 64.
Proof.
  rewrite <- Z.add_nocarry_lor.
  - change 63 with (Z.ones 6). rewrite Z.land_ones by lia.
    change (2 ^ 6) with 64. lia.
  - rewrite <- Z.land_assoc. apply Z.land_0_r.
Qed.

Lemma encode_length_small (n : Z) : n < 256 -> encode_length n = Done [n].
Proof.
  intros H. unfold encode_length. apply Z.ltb_lt in H. now rewrite H.
Qed.

Lemma encode_length_two (n : Z) :
  256 <= n < 65536 ->
  encode_length n = Done [128 + (n / 256) mod 64; n mod 256].
Proof.
  intros [H1 H2]. unfold encode_length, to_bytes2.
  destruct (Z.ltb_spec n 256) as [H|_]; [lia|].
  destruct (Z.leb_spec 0 n) as [_|H]; [|lia].
  destruct (Z.ltb_spec n 65536) as [_|H]; [|lia]. simpl.
  rewrite tag_byte. change 255 with (Z.ones 8).
  rewrite Z.land_ones, Z.shiftr_div_pow2 by lia. reflexivity.
Qed.

Lemma encode_length_big (n : Z) : 65536 <= n -> encode_length n = Failed OverflowError.
Proof.
  intros H. unfold encode_length, to_bytes2.
  destruct (Z.ltb_spec n 256) as [H'|_]; [lia|].
  destruct (Z.ltb_spec n 65536) as [H'|_]; [lia|].
  now rewrite andb_false_r.
Qed.

(** X1. The shape of an encoded length: one byte, the length itself, below 256;
    two bytes, the first tagged with the top bits 10, from 256 up to 65535;
    [OverflowError] from 65536 up. *)
Theorem encode_length_shape (n : Z) :
  (0 <= n < 256 -> encode_length n = Done [n])
  /\ (256 <= n < 65536 ->
      exists b0 b1, encode_length n = Done [b0; b1]
                    /\ 128 <= b0 <= 191 /\ 0 <= b1 <= 255
                    /\ b1 = n mod 256)
  /\ (65536 <= n -> encode_length n = Failed OverflowError).
Proof.
  split; [intros H; apply encode_length_small; lia|].
  split; [|apply encode_length_big].
  intros H. exists (128 + (n / 256) mod 64), (n mod 256).
  split; [now apply encode_length_two|].
  pose proof (Z.mod_pos_bound (n / 256) 64). pose proof (Z.mod_pos_bound n 256). lia.
Qed.

Lemma encode_length_shape_witness :
  encode_length 200 = Done [200]
  /\ encode_length 600 = Done [130; 88]
  /\ encode_length 70000 = Failed OverflowError.
Proof.
  destruct (encode_length_shape 200) as (H1 & _ & _).
  destruct (encode_length_shape 600) as (_ & H2 & _).
  destruct (encode_length_shape 70000) as (_ & _ & H3).
  split; [apply H1; lia|]. split; [|apply H3; lia].
  destruct H2 as (b0 & b1 & H & _); [lia|]. reflexivity.
Defined.

(** Lengths below 16384 are read back from their encoding. *)
Lemma encode_length_reads_back (n : Z) :
  0 <= n < 16384 ->
  exists b, encode_length n = Done b
            /\ length b = encoded_size n
            /\ decode_length b = Some n.
Proof.
  intros H. unfold encoded_size. destruct (Z.ltb_spec n 256) as [Hs|Hs].
  - exists [n]. rewrite encode_length_small by lia. repeat split.
  - exists [128 + (n / 256) mod 64; n mod 256].
    rewrite encode_length_two by lia. split; [reflexivity|]. split; [reflexivity|].
    simpl. f_equal. rewrite (Z.mod_small (n / 256) 64).
    + pose proof (Z.div_mod n 256). lia.
    + split; [apply Z.div_pos; lia|]. apply Z.div_lt_upper_bound; lia.
Qed.

(** X2. Distinct lengths below 16384 have distinct encodings, across the
    one-byte and the two-byte form. *)
Theorem encode_length_injective (n m : Z) :
  0 <= n < 16384 -> 0 <= m < 16384 -> n <> m ->
  encode_length n <> encode_length m.
Proof.
  intros Hn Hm Hne E.
  destruct (encode_length_reads_back n Hn) as (b & Hb & _ & Hd).
  destruct (encode_length_reads_back m Hm) as (b' & Hb' & _ & Hd').
  rewrite Hb, Hb' in E. injection E as <-. rewrite Hd in Hd'.
  injection Hd' as ->. now apply Hne.
Qed.

(** The last one-byte length and the first two-byte length. *)
Lemma encode_length_injective_witness : encode_length 255 <> encode_length 256.
Proof. apply encode_length_injective; lia. Defined.

End LengthEncoding.

(** ** lib/e2sm_ccc_module.py: the control request *)

Section ControlRequest.

Import E2smCcc.

Local Open Scope Z_scope.

(** X3. Two lengths of the two-byte range that agree modulo 16384 are encoded
    by the same bytes. *)
Theorem encode_length_collides (n m : Z) :
  256 <= n < 65536 -> 256 <= m < 65536 ->
  n mod 16384 = m mod 16384 ->
  encode_length n = encode_length m.
Proof.
  intros Hn Hm E. rewrite !encode_length_two by lia.
  assert (D : forall k, (k / 256) mod 64 * 256 + k mod 256 = k mod 16384).
  { intros k. pose proof (Z.div_mod k 256). pose proof (Z.div_mod (k / 256) 64).
    pose proof (Z.mod_pos_bound k 256). pose proof (Z.mod_pos_bound (k / 256) 64).
    apply Z.mod_unique_pos with (q := k / 256 / 64); lia. }
  pose proof (D n) as Dn. pose proof (D m) as Dm. rewrite E in Dn.
  pose proof (Z.mod_pos_bound n 256). pose proof (Z.mod_pos_bound m 256).
  pose proof (Z.mod_pos_bound (n / 256) 64). pose proof (Z.mod_pos_bound (m / 256) 64).
  assert ((n / 256) mod 64 = (m / 256) mod 64) by lia.
  assert (n mod 256 = m mod 256) by lia.
  congruence.
Qed.

Lemma encode_length_collides_witness : encode_length 600 = encode_length 16984.
Proof. apply encode_length_collides; [lia | lia | reflexivity]. Defined.

Lemma draw_ids_counter (k : nat) (st : state) :
  requestorID (fst (draw_ids k st)) = (if k is O then requestorID st
                                       else (requestorID st + Z.of_nat k) mod 255)
  /\ ran_func_id (fst (draw_ids k st)) = ran_func_id st.
Proof.
  revert st. induction k as [|k IH]; intros st; [split; reflexivity|].
  cbn [draw_ids]. unfold get_requestor_id.
  destruct (draw_ids k _) as [st2 rs] eqn:E.
  specialize (IH {| ran_func_id := ran_func_id st;
                    requestorID := (requestorID st + 1) mod 255 |}).
  rewrite E in IH. simpl in *. destruct IH as [IH1 IH2]. split; [|exact IH2].
  rewrite IH1. destruct k as [|k']; [f_equal; lia|].
  rewrite Zplus_mod_idemp_l. f_equal. lia.
Qed.

(** X4. Requestor ids stay in 0..254 whatever the counter held before: the
    [k]-th call returns the counter plus [k] modulo 255, so 255 is never
    issued and the ids repeat with period 255. *)
Theorem requestor_ids_cycle (k : nat) (st : state) :
  let ids := snd (draw_ids k st) in
  length ids = k
  /\ Forall (fun r => 0 <= r <= 254) ids
  /\ (forall i, (i < k)%nat ->
        ids !! i = Some ((requestorID st + Z.of_nat (S i)) mod 255))
  /\ (0 <= requestorID st < 255 ->
      requestorID (fst (draw_ids 255 st)) = requestorID st).
Proof.
  cbv zeta. split; [|split; [|split]].
  - revert st. induction k as [|k IH]; intros st; [reflexivity|].
    cbn [draw_ids]. unfold get_requestor_id.
    specialize (IH {| ran_func_id := ran_func_id st;
                      requestorID := (requestorID st + 1) mod 255 |}).
    destruct (draw_ids k _) as [st2 rs]. simpl in *. now rewrite IH.
  - revert st. induction k as [|k IH]; intros st; [constructor|].
    cbn [draw_ids]. unfold get_requestor_id.
    specialize (IH {| ran_func_id := ran_func_id st;
                      requestorID := (requestorID st + 1) mod 255 |}).
    destruct (draw_ids k _) as [st2 rs]. simpl in *. constructor; [|exact IH].
    pose proof (Z.mod_pos_bound (requestorID st + 1) 255). lia.
  - revert st. induction k as [|k IH]; intros st i Hi; [lia|].
    cbn [draw_ids]. unfold get_requestor_id.
    specialize (IH {| ran_func_id := ran_func_id st;
                      requestorID := (requestorID st + 1) mod 255 |}).
    destruct (draw_ids k _) as [st2 rs]. simpl in *.
    destruct i as [|i]; simpl.
    + reflexivity.
    + rewrite IH by lia. rewrite Zplus_mod_idemp_l. do 2 f_equal. lia.
  - intros H. destruct (draw_ids_counter 255 st) as [Hc _]. rewrite Hc.
    change (Z.of_nat 255) with (1 * 255). rewrite Z.mod_add by lia.
    apply Z.mod_small. lia.
Qed.

Lemma requestor_ids_cycle_witness :
  let ids := snd (draw_ids 3 {| ran_func_id := 4; requestorID := 253 |}) in
  ids !! 0%nat = Some 254 /\ ids !! 1%nat = Some 0 /\ ids !! 2%nat = Some 1.
Proof.
  destruct (requestor_ids_cycle 3 {| ran_func_id := 4; requestorID := 253 |})
    as (_ & _ & H & _).
  split; [exact (H 0%nat ltac:(lia))|].
  split; [exact (H 1%nat ltac:(lia)) | exact (H 2%nat ltac:(lia))].
Defined.

Lemma bytes_of_done (l : list Z) :
  Forall is_byte l -> exists b, bytes_of l = Done b /\ length b = length l.
Proof.
  intros H. unfold bytes_of.
  destruct (mapM _ l) as [b|] eqn:E.
  - exists b. split; [reflexivity|]. symmetry. eapply length_mapM, E.
  - exfalso. apply mapM_None_1 in E. rewrite Exists_exists in E.
    destruct E as (z & Hz & Hn). rewrite Forall_forall in H.
    specialize (H z Hz). unfold is_byte in H.
    destruct (Z.leb_spec 0 z); [|lia]. destruct (Z.ltb_spec z 256); [|lia].
    simpl in Hn. apply Byte.of_N_None_iff in Hn. lia.
Qed.

Lemma bytes_of_failed (l : list Z) :
  Exists (fun z => ~ is_byte z) l -> bytes_of l = Failed ValueError.
Proof.
  intros H. unfold bytes_of. rewrite (mapM_None_2 _ l); [reflexivity|].
  eapply Exists_impl; [exact H|]. intros z Hz. simpl. unfold is_byte in Hz.
  destruct (Z.leb_spec 0 z); [|reflexivity].
  destruct (Z.ltb_spec z 256); [|reflexivity]. lia.
Qed.

Lemma ints_of_bytes (b : list Byte.byte) : Forall is_byte (ints_of b).
Proof.
  unfold ints_of. apply Forall_map, Forall_forall. intros x _. simpl.
  unfold is_byte. pose proof (Byte.to_N_bounded x). lia.
Qed.

Lemma encode_length_bytes (n : Z) :
  0 <= n < 65536 ->
  exists e, encode_length n = Done e /\ Forall is_byte e /\ length e = encoded_size n.
Proof.
  intros H. unfold encoded_size. destruct (Z.ltb_spec n 256).
  - exists [n]. rewrite encode_length_small by lia.
    split; [reflexivity|]. split; [|reflexivity]. repeat constructor; lia.
  - exists [128 + (n / 256) mod 64; n mod 256]. rewrite encode_length_two by lia.
    split; [reflexivity|]. split; [|reflexivity].
    pose proof (Z.mod_pos_bound (n / 256) 64). pose proof (Z.mod_pos_bound n 256).
    repeat constructor; lia.
Qed.

Lemma shifted_ack (ack : Z) : 0 <= ack <= 3 <-> is_byte (Z.shiftl ack 6).
Proof. unfold is_byte. rewrite Z.shiftl_mul_pow2 by lia. change (2 ^ 6) with 64. lia. Qed.

Ltac bytes_goal :=
  repeat (apply Forall_app_2 || apply Forall_cons_2 || apply Forall_nil_2);
  try assumption; try (unfold is_byte; simpl; lia).

(** X5. A request with a total length below 65536, a RAN function id that fits
    a byte and an acknowledge flag in 0..3 is built; it has 32 fixed bytes
    plus the five encoded lengths, the header and the message.  The length
    field written after the first three bytes counts exactly the bytes that
    follow it when the header is shorter than 255 bytes and the message is at
    least 256 bytes long; for a message shorter than 254 bytes it overstates
    them by two. *)
Theorem build_request_length (st : state) (control_header control_msg : list Byte.byte)
    (ack_request : Z) :
  let hl := Z.of_nat (length control_header) in
  let ml := Z.of_nat (length control_msg) in
  let total := 32 + hl + ml + 1 + 2 in
  total < 65536 -> is_byte (ran_func_id st) -> 0 <= ack_request <= 3 ->
  exists payload,
    build_ric_control_request st control_header control_msg ack_request
    = (fst (get_requestor_id st), Done payload)
    /\ Z.of_nat (length payload)
       = 32 + Z.of_nat (encoded_size total)
         + Z.of_nat (encoded_size (hl + 1)) + Z.of_nat (encoded_size hl) + hl
         + Z.of_nat (encoded_size (ml + 2)) + Z.of_nat (encoded_size ml) + ml
    /\ (hl < 255 -> 256 <= ml ->
        Z.of_nat (length payload) - 3 - Z.of_nat (encoded_size total) = total)
    /\ (hl < 255 -> ml < 254 ->
        Z.of_nat (length payload) - 3 - Z.of_nat (encoded_size total) = total - 2).
Proof.
  intros hl ml total Htotal Hran Hack.
  assert (Hhl : 0 <= hl) by (subst hl; lia).
  assert (Hml : 0 <= ml) by (subst ml; lia).
  destruct (encode_length_bytes total) as (e_total & E1 & B1 & L1); [lia|].
  destruct (encode_length_bytes (hl + 1)) as (e_h1 & E2 & B2 & L2); [lia|].
  destruct (encode_length_bytes hl) as (e_h & E3 & B3 & L3); [lia|].
  destruct (encode_length_bytes (ml + 2)) as (e_m2 & E4 & B4 & L4); [lia|].
  destruct (encode_length_bytes ml) as (e_m & E5 & B5 & L5); [lia|].
  unfold build_ric_control_request. cbn [get_requestor_id fst].
  fold hl ml. fold total. rewrite E1, E2, E3, E4, E5.
  pose proof (Z.mod_pos_bound (requestorID st + 1) 255 ltac:(lia)) as Hrid.
  pose proof (ints_of_bytes control_header) as Bh.
  pose proof (ints_of_bytes control_msg) as Bm.
  apply shifted_ack in Hack.
  match goal with
  | |- context [bytes_of ?l] =>
      destruct (bytes_of_done l) as (payload & Hp & Lp); [bytes_goal; fail|]
  end.
  exists payload. split; [now rewrite Hp|].
  assert (Hlen : Z.of_nat (length payload)
       = 32 + Z.of_nat (encoded_size total)
         + Z.of_nat (encoded_size (hl + 1)) + Z.of_nat (encoded_size hl) + hl
         + Z.of_nat (encoded_size (ml + 2)) + Z.of_nat (encoded_size ml) + ml).
  { rewrite Lp. rewrite !length_app. unfold ints_of. rewrite !length_map.
    rewrite L1, L2, L3, L4, L5. simpl length. subst hl ml. lia. }
  split; [exact Hlen|]. rewrite Hlen. unfold encoded_size.
  split; intros H1 H2.
  - destruct (Z.ltb_spec (hl + 1) 256); [|lia]. destruct (Z.ltb_spec hl 256); [|lia].
    destruct (Z.ltb_spec (ml + 2) 256); [lia|]. destruct (Z.ltb_spec ml 256); [lia|].
    subst total. lia.
  - destruct (Z.ltb_spec (hl + 1) 256); [|lia]. destruct (Z.ltb_spec hl 256); [|lia].
    destruct (Z.ltb_spec (ml + 2) 256); [|lia]. destruct (Z.ltb_spec ml 256); [|lia].
    subst total. lia.
Qed.

(** A 44-byte header and a 300-byte message: 384 bytes, 379 of them after
    the length field, which holds 379. *)
Lemma build_request_length_witness :
  exists payload,
    snd (build_ric_control_request init (replicate 44 Byte.x7b) (replicate 300 Byte.x20) 1)
    = Done payload
    /\ Z.of_nat (length payload) = 384
    /\ Z.of_nat (length payload) - 3 - 2 = 32 + 44 + 300 + 1 + 2.
Proof.
  destruct (build_request_length init (replicate 44 Byte.x7b) (replicate 300 Byte.x20) 1)
    as (payload & H & Hl & Hc & _).
  - vm_compute. reflexivity.
  - unfold is_byte. simpl. lia.
  - lia.
  - exists payload. rewrite H. split; [reflexivity|].
    rewrite !length_replicate in Hl, Hc. split.
    + rewrite Hl. reflexivity.
    + apply Hc; lia.
Defined.

(** X6. The requestor id is drawn before anything can fail: a request that
    raises has consumed an id all the same.  A total length of 65536 or more
    raises [OverflowError]; an acknowledge flag outside 0..3, or a RAN
    function id that does not fit a byte, raises [ValueError]. *)
Theorem build_request_failures (st : state) (control_header control_msg : list Byte.byte)
    (ack_request : Z) :
  let total := 32 + Z.of_nat (length control_header) + Z.of_nat (length control_msg) + 1 + 2 in
  let r := build_ric_control_request st control_header control_msg ack_request in
  requestorID (fst r) = (requestorID st + 1) mod 255
  /\ ran_func_id (fst r) = ran_func_id st
  /\ (65536 <= total -> snd r = Failed OverflowError)
  /\ (total < 65536 -> ~ 0 <= ack_request <= 3 -> snd r = Failed ValueError)
  /\ (total < 65536 -> ~ is_byte (ran_func_id st) -> snd r = Failed ValueError).
Proof.
  intros total r. subst r. unfold build_ric_control_request.
  cbn [get_requestor_id fst snd requestorID ran_func_id]. fold total.
  split; [reflexivity|]. split; [reflexivity|]. split.
  { intros H. now rewrite encode_length_big. }
  assert (Hbuilt : total < 65536 ->
    exists e1 e2 e3 e4 e5,
      encode_length total = Done e1
      /\ encode_length (Z.of_nat (length control_header) + 1) = Done e2
      /\ encode_length (Z.of_nat (length control_header)) = Done e3
      /\ encode_length (Z.of_nat (length control_msg) + 2) = Done e4
      /\ encode_length (Z.of_nat (length control_msg)) = Done e5).
  { intros H. subst total.
    destruct (encode_length_bytes
                (32 + Z.of_nat (length control_header) + Z.of_nat (length control_msg) + 1 + 2))
      as (e1 & E1 & _); [lia|].
    destruct (encode_length_bytes (Z.of_nat (length control_header) + 1))
      as (e2 & E2 & _); [lia|].
    destruct (encode_length_bytes (Z.of_nat (length control_header)))
      as (e3 & E3 & _); [lia|].
    destruct (encode_length_bytes (Z.of_nat (length control_msg) + 2))
      as (e4 & E4 & _); [lia|].
    destruct (encode_length_bytes (Z.of_nat (length control_msg)))
      as (e5 & E5 & _); [lia|].
    now exists e1, e2, e3, e4, e5. }
  split; intros Ht Hbad; destruct (Hbuilt Ht) as (e1 & e2 & e3 & e4 & e5 & E1 & E2 & E3 & E4 & E5);
    rewrite E1, E2, E3, E4, E5; apply bytes_of_failed; rewrite !Exists_app.
  - do 16 right. rewrite shifted_ack in Hbad.
    do 4 apply Exists_cons_tl. apply Exists_cons_hd. exact Hbad.
  - do 7 right. left. apply Exists_cons_tl, Exists_cons_hd. exact Hbad.
Qed.

Lemma build_request_failures_witness :
  let r := build_ric_control_request init (replicate 44 Byte.x7b) (replicate 300 Byte.x20) 4 in
  snd r = Failed ValueError /\ requestorID (fst r) = 1.
Proof.
  destruct (build_request_failures init (replicate 44 Byte.x7b) (replicate 300 Byte.x20) 4)
    as (Hid & _ & _ & H & _).
  split; [|exact Hid]. apply H; [vm_compute; reflexivity | lia].
Defined.

Lemma clamp_ratio_range (x : Z) : 0 <= clamp_ratio x <= 100.
Proof. unfold clamp_ratio. lia. Qed.

Section SendFacts.

Variable dumps_header : list Byte.byte.
Variable dumps_msg : Z -> Z -> Z -> list Byte.byte.

Local Abbreviation send := (send_control_request dumps_header dumps_msg).

(** X7. The ratios are clamped to 0..100 before they are compared, so a request
    is refused (nothing built or sent, no requestor id drawn) exactly when
    the maximum is below the minimum, below 100, and the minimum is above 0;
    every other request is built from the clamped ratios. *)
Theorem send_refused_iff (st : state) (mn mx ded ack : Z) :
  (send st mn mx ded ack = (st, Done None) <-> mx < mn /\ mx < 100 /\ 0 < mn)
  /\ (~ (mx < mn /\ mx < 100 /\ 0 < mn) ->
      send st mn mx ded ack
      = (fst (get_requestor_id st),
         match snd (build_ric_control_request st dumps_header
                      (dumps_msg (clamp_ratio mx) (clamp_ratio mn) (clamp_ratio ded)) ack) with
         | Done payload => Done (Some payload)
         | Failed e => Failed e
         end))
  /\ 0 <= clamp_ratio mn <= 100 /\ 0 <= clamp_ratio mx <= 100
  /\ 0 <= clamp_ratio ded <= 100.
Proof.
  assert (Hiff : clamp_ratio mx < clamp_ratio mn <-> mx < mn /\ mx < 100 /\ 0 < mn)
    by (unfold clamp_ratio; lia).
  pose proof (clamp_ratio_range mn). pose proof (clamp_ratio_range mx).
  pose proof (clamp_ratio_range ded).
  split; [|split; [|lia]]; unfold send_control_request;
    destruct (Z.ltb_spec (clamp_ratio mx) (clamp_ratio mn)) as [Hlt|Hge].
  - split; [intros _; now apply Hiff | reflexivity].
  - destruct (build_ric_control_request st dumps_header _ ack) as [s1 o]. split.
    + intros E. exfalso. injection E as _ E. destruct o; discriminate E.
    + intros Hc. apply Hiff in Hc. lia.
  - intros Hn. exfalso. apply Hn, Hiff, Hlt.
  - intros _.
    assert (Hfst : forall h m a,
      fst (build_ric_control_request st h m a) = fst (get_requestor_id st))
      by reflexivity.
    rewrite <- (Hfst dumps_header
                  (dumps_msg (clamp_ratio mx) (clamp_ratio mn) (clamp_ratio ded)) ack).
    destruct (build_ric_control_request st dumps_header _ ack) as [s1 o]. reflexivity.
Qed.

End SendFacts.

(** Minimum 150 and maximum 120 both clamp to 100 and the request is built;
    minimum 50 and maximum 20 is refused. *)
Lemma send_refused_iff_witness :
  send_control_request (replicate 44 Byte.x7b) (fun _ _ _ => replicate 300 Byte.x20)
    init 50 20 100 1 = (init, Done None)
  /\ fst (send_control_request (replicate 44 Byte.x7b) (fun _ _ _ => replicate 300 Byte.x20)
            init 150 120 100 1) = fst (get_requestor_id init).
Proof.
  destruct (send_refused_iff (replicate 44 Byte.x7b) (fun _ _ _ => replicate 300 Byte.x20)
              init 50 20 100 1) as ((_ & H1) & _).
  destruct (send_refused_iff (replicate 44 Byte.x7b) (fun _ _ _ => replicate 300 Byte.x20)
              init 150 120 100 1) as (_ & H2 & _).
  split; [apply H1; lia|]. rewrite H2 by lia. reflexivity.
Defined.

End ControlRequest.

(** ** anomaly_detector.py: properties of the callback *)

Section CallbackFacts.

Import Py Deque AnomalyDetector AnomalyCallback.

Variable np_sqrt : Q -> Q.

Local Abbreviation detect := (detect_anomaly np_sqrt).
Local Abbreviation step := (process_metric np_sqrt).
Local Abbreviation run := (run_metrics np_sqrt).

Lemma step_cases (st : state) (k : string) (values : list Q) (now : Q) :
  values <> [] ->
  exists st' b s,
    step st k values now = Ok (st', Some (b, s))
    /\ detect (update_metrics_history st k (sum values)) k (sum values) now
       = Ok (st', (b, s))
    /\ (b = false -> st' = update_metrics_history st k (sum values))
    /\ (b = true ->
        st' = record_alert (update_metrics_history st k (sum values)) k now).
Proof.
  intros Hne. unfold process_metric.
  destruct values as [|v vs]; [contradiction|].
  destruct (detect_returns np_sqrt (update_metrics_history st k (sum (v :: vs))) k
              (sum (v :: vs)) now) as (st' & b & s & H & Hf & Ht).
  exists st', b, s. rewrite H. repeat split; assumption.
Qed.

(** X8. A key whose stored window, with the new sample, is still shorter than
    [min_history_for_detection] cannot alert: the report is stored and
    [(False, 0.0)] comes back, whatever the values are. *)
Theorem no_alert_during_warm_up (st : state) (k : string) (values : list Q) (now : Q) :
  values <> [] ->
  (Z.of_nat (length (window st k)) + 1 < min_history_for_detection st)%Z ->
  step st k values now
  = Ok (update_metrics_history st k (sum values), Some (false, 0.0)).
Proof.
  intros Hne Hlen. unfold process_metric.
  destruct values as [|v vs]; [contradiction|].
  set (x := sum (v :: vs)).
  assert (Hd : exists d, metrics_history (update_metrics_history st k x) !! k = Some d
                         /\ (length (items d) <= length (window st k) + 1)%nat).
  { unfold update_metrics_history, window. simpl. rewrite lookup_insert_eq.
    eexists. split; [reflexivity|].
    destruct (metrics_history st !! k) as [d|]; unfold append; simpl.
    - destruct (_ <? _)%nat.
      + destruct (items d); simpl; [lia|]. rewrite length_app. simpl. lia.
      + rewrite length_app. simpl. lia.
    - destruct (_ <? _)%nat; simpl; lia. }
  destruct Hd as (d & Hd & Hl).
  rewrite (detect_short np_sqrt _ k x now d Hd); [reflexivity|].
  change (min_history_for_detection (update_metrics_history st k x))
    with (min_history_for_detection st). lia.
Qed.

Lemma update_last_alert (st : state) (k k' : string) (v : Q) :
  last_alert_of (update_metrics_history st k v) k' = last_alert_of st k'.
Proof. reflexivity. Qed.

Lemma record_alert_last_same (st : state) (k : string) (now : Q) :
  last_alert_of (record_alert st k now) k = now.
Proof. unfold last_alert_of. simpl. now rewrite lookup_insert_eq. Qed.

Lemma record_alert_last_other (st : state) (k k' : string) (now : Q) :
  k <> k' -> last_alert_of (record_alert st k now) k' = last_alert_of st k'.
Proof. intros H. unfold last_alert_of. simpl. now rewrite lookup_insert_ne. Qed.

(** An alert means the cooldown had elapsed. *)
Lemma detect_true_elapsed (st st' : state) (k : string) (x now s : Q) :
  detect st k x now = Ok (st', (true, s)) ->
  alert_cooldown st < now - last_alert_of st k.
Proof.
  intros H.
  destruct (metrics_history st !! k) as [d|] eqn:Hd.
  2:{ rewrite (detect_unknown np_sqrt _ _ _ _ Hd) in H. discriminate H. }
  destruct (Z.lt_ge_cases (Z.of_nat (length (items d))) (min_history_for_detection st))
    as [Hlen|Hlen].
  { rewrite (detect_short np_sqrt _ _ _ _ _ Hd Hlen) in H. discriminate H. }
  destruct (Qeq_dec (np_std np_sqrt (items d)) 0) as [Hstd|Hstd].
  { rewrite (detect_flat np_sqrt _ _ _ _ _ Hd Hstd) in H. discriminate H. }
  rewrite (detect_scored np_sqrt _ _ _ _ _ Hd Hlen Hstd) in H.
  destruct (ltb (anomaly_threshold st) _); simpl in H; [|discriminate H].
  destruct (ltb (alert_cooldown st) _) eqn:E; [|discriminate H].
  now apply ltb_lt in E.
Qed.

Lemma alert_times_cons (k : string) (o : string * Q * (bool * Q))
    (outs : list (string * Q * (bool * Q))) :
  alert_times k (o :: outs)
  = if decide (fst (fst o) = k /\ fst (snd o) = true)
    then snd (fst o) :: alert_times k outs
    else alert_times k outs.
Proof.
  unfold alert_times. rewrite filter_cons.
  destruct (decide (fst (fst o) = k /\ fst (snd o) = true)); reflexivity.
Qed.

Lemma last_default (l : list Q) (x a d : Q) :
  List.last (x :: l) a = List.last (x :: l) d.
Proof.
  revert x. induction l as [|y l IH]; intros x; [reflexivity|].
  change (List.last (y :: l) a = List.last (y :: l) d). apply IH.
Qed.

Lemma last_after_cons (l : list Q) (a d : Q) :
  List.last l a = List.last (a :: l) d.
Proof.
  destruct l as [|x l]; [reflexivity|].
  change (List.last (x :: l) a = List.last (x :: l) d). apply last_default.
Qed.

(** X9. Alerts are rate limited over any run of the callback: two consecutive
    alerts for one key are more than [alert_cooldown] apart, and the first
    one comes more than [alert_cooldown] after the alert time stored before
    the run. *)
Theorem alerts_are_spaced (reports : list (string * list Q * Q)) (st : state) (k : string) :
  exists st' outs,
    run st reports = Ok (st', outs)
    /\ alert_cooldown st' = alert_cooldown st
    /\ spaced (alert_cooldown st) (last_alert_of st k) (alert_times k outs)
    /\ last_alert_of st' k = List.last (alert_times k outs) (last_alert_of st k).
Proof.
  revert st. induction reports as [|[[key values] now] rest IH]; intros st.
  { exists st, []. repeat split. }
  cbn [run_metrics].
  destruct values as [|v vs].
  - unfold process_metric. cbn [mbind result_bind].
    destruct (IH st) as (st' & outs & Hr & Hc & Hs & Hl).
    rewrite Hr. exists st', outs. repeat split; assumption.
  - destruct (step_cases st key (v :: vs) now) as (st1 & b & s & Hstep & Hdet & Hf & Ht);
      [discriminate|].
    rewrite Hstep. cbn [mbind result_bind].
    destruct (IH st1) as (st' & outs & Hr & Hc & Hs & Hl).
    rewrite Hr. eexists st', _. split; [reflexivity|].
    assert (Hcd : alert_cooldown st1 = alert_cooldown st).
    { destruct b; [rewrite (Ht eq_refl) | rewrite (Hf eq_refl)]; reflexivity. }
    rewrite Hcd in Hc, Hs. split; [exact Hc|].
    rewrite alert_times_cons. cbn [fst snd].
    destruct (decide (key = k /\ b = true)) as [[-> ->]|Hno].
    + apply detect_true_elapsed in Hdet.
      assert (Hlast : last_alert_of st1 k = now).
      { rewrite (Ht eq_refl). apply record_alert_last_same. }
      rewrite Hlast in Hs, Hl. split.
      * split; [exact Hdet | exact Hs].
      * rewrite Hl. apply last_after_cons.
    + assert (Hlast : last_alert_of st1 k = last_alert_of st k).
      { destruct b.
        - rewrite (Ht eq_refl). rewrite record_alert_last_other; [reflexivity|].
          intros ->. apply Hno. now split.
        - rewrite (Hf eq_refl). reflexivity. }
      rewrite Hlast in Hs, Hl. split; assumption.
Qed.

Lemma details_total_incr (m : gmap string Z) (k : string) :
  map_fold (fun (_ : string) (v acc : Z) => (v + acc)%Z) 0%Z
    (<[k := (default 0%Z (m !! k) + 1)%Z]> m)
  = (map_fold (fun (_ : string) (v acc : Z) => (v + acc)%Z) 0%Z m + 1)%Z.
Proof.
  assert (Hcomm : forall (m' : gmap string Z) (x : Z) (j1 j2 : string) (z1 z2 y : Z),
            j1 <> j2 -> <[k:=x]> m' !! j1 = Some z1 -> <[k:=x]> m' !! j2 = Some z2 ->
            (z1 + (z2 + y) = z2 + (z1 + y))%Z) by (intros; lia).
  destruct (m !! k) as [v|] eqn:E; simpl.
  - rewrite <- (insert_delete_id m k v E) at 2.
    rewrite <- insert_delete_eq.
    rewrite !map_fold_insert_L; try apply lookup_delete_eq; try apply Hcomm. lia.
  - rewrite map_fold_insert_L; [lia | apply Hcomm | exact E].
Qed.

(** X10. Both counters count the alerts: over any run the global counter and the
    sum of the per-key counters each grow by the number of alerts returned,
    so they stay equal once they are. *)
Theorem counters_count_alerts (reports : list (string * list Q * Q)) (st : state) :
  exists st' outs,
    run st reports = Ok (st', outs)
    /\ anomalies_detected st' = (anomalies_detected st + alert_count outs)%Z
    /\ details_total st' = (details_total st + alert_count outs)%Z.
Proof.
  revert st. induction reports as [|[[key values] now] rest IH]; intros st.
  { exists st, []. unfold alert_count. simpl. repeat split; lia. }
  cbn [run_metrics].
  destruct values as [|v vs].
  - unfold process_metric. cbn [mbind result_bind].
    destruct (IH st) as (st' & outs & Hr & Ha & Hd).
    rewrite Hr. exists st', outs. repeat split; assumption.
  - destruct (step_cases st key (v :: vs) now) as (st1 & b & s & Hstep & _ & Hf & Ht);
      [discriminate|].
    rewrite Hstep. cbn [mbind result_bind].
    destruct (IH st1) as (st' & outs & Hr & Ha & Hd).
    rewrite Hr. eexists st', _. split; [reflexivity|].
    rewrite Ha, Hd. unfold alert_count. rewrite filter_cons. cbn [fst snd].
    destruct b.
    + rewrite (Ht eq_refl). unfold details_total. simpl.
      rewrite details_total_incr.
      destruct (decide (true = true)); [|contradiction]. simpl length. lia.
    + rewrite (Hf eq_refl). unfold details_total. simpl.
      destruct (decide (false = true)); [discriminate|]. lia.
Qed.

End CallbackFacts.

Section CallbackExamples.

Import Py Deque AnomalyDetector AnomalyCallback.

Lemma no_alert_during_warm_up_witness :
  process_metric sqrt_exact (after_inserting "0_DRB.UEThpDl" [5; 5; 5]) "0_DRB.UEThpDl"
    [400; 600] 1000
  = Ok (update_metrics_history (after_inserting "0_DRB.UEThpDl" [5; 5; 5])
          "0_DRB.UEThpDl" (sum [400; 600]), Some (false, 0.0)).
Proof.
  apply (no_alert_during_warm_up sqrt_exact); [discriminate|]. vm_compute. reflexivity.
Defined.


End CallbackExamples.

(** ** qos_traffic_steerer.py: properties of the callback *)

Section SteererCallbackFacts.

Import Py Deque QoSSteerer SteererCallback.

(** The QoS check leaves the state alone or counts one violation. *)
Lemma check_state (st st2 : state) (ue : Z) (t : string) (md : metrics) (v : bool) :
  check_qos_violations st ue t md = Ok (st2, v) ->
  (st2 = st /\ v = false) \/ (st2 = incr_violations st ue /\ v = true).
Proof.
  unfold check_qos_violations.
  destruct (String.eqb t "unknown"); [intros [= <- <-]; now left|].
  destruct (qos_profiles st !! t) as [p|]; [|discriminate].
  destruct (throughput_below md "DRB.UEThpDl" _); [intros [= <- <-]; now right|].
  destruct (throughput_below md "DRB.UEThpUl" _); intros [= <- <-]; [now right | now left].
Qed.

(** [should_steer_ue] leaves the state alone, or inserts the default counter
    it read. *)
Lemma should_steer_state (st : state) (ue : Z) (load : Q) (t : string) (now : Q) :
  let st4 := fst (should_steer_ue st ue load t now) in
  st4 = st
  \/ st4 = set_ue_qos_violations st (<[ue := 0%Z]> (ue_qos_violations st)).
Proof.
  unfold should_steer_ue, read_violations.
  destruct (ltb _ _); [now left|].
  destruct (ue_qos_violations st !! ue) as [v|].
  - destruct (_ <? _)%Z; [now left|].
    destruct (ltb _ _); [|now left].
    destruct (_ <=? _)%Z; now left.
  - destruct (_ <? _)%Z; [now right|].
    destruct (ltb _ _); [|now right].
    destruct (_ <=? _)%Z; now right.
Qed.

(** One iteration of the per-UE loop, field by field. *)
Lemma process_ue_spec (st : state) (id : string) (load : Q) (ue : Z) (md : metrics)
    (tc tr : Q) (st' : state) (steer : bool) :
  process_ue st id load ue md tc tr = Ok (st', steer) ->
  qos_profiles st' = qos_profiles st
  /\ load_threshold st' = load_threshold st
  /\ qos_violation_threshold st' = qos_violation_threshold st
  /\ steering_cooldown st' = steering_cooldown st
  /\ cell_load st' = cell_load st
  /\ ue_cell_mapping st' = <[ue := id]> (ue_cell_mapping st)
  /\ ue_traffic_history st'
     = <[ue := append (default (Deque.new 50) (ue_traffic_history st !! ue)) md]>
         (ue_traffic_history st)
  /\ (forall ue', ue' <> ue ->
        ue_qos_violations st' !! ue' = ue_qos_violations st !! ue')
  /\ (steer = true ->
        load_threshold st < load
        /\ steering_cooldown st <= tc - default 0 (last_steering_time st !! ue)
        /\ last_steering_time st' = <[ue := tr]> (last_steering_time st))
  /\ (steer = false -> last_steering_time st' = last_steering_time st).
Proof.
  unfold process_ue.
  destruct (classify_traffic_eq st ue md) as (Hst1 & _). cbv zeta in Hst1.
  destruct (classify_traffic st ue md) as [st1 tt]. simpl in Hst1.
  destruct (check_qos_violations st1 ue tt md) as [[st2 v]|e] eqn:Hc; [|discriminate].
  cbn [mbind result_bind].
  set (st3 := set_ue_cell_mapping st2 (<[ue := id]> (ue_cell_mapping st2))).
  pose proof (should_steer_spec st3 ue load tt tc) as (Hiff & _ & Hlast).
  pose proof (should_steer_state st3 ue load tt tc) as Hst4. cbv zeta in Hst4.
  destruct (should_steer_ue st3 ue load tt tc) as [st4 s]. simpl in Hiff, Hlast, Hst4.
  assert (Hst2 : st2 = st1 \/ st2 = incr_violations st1 ue).
  { apply check_state in Hc. destruct Hc as [[-> _]|[-> _]]; [now left | now right]. }
  assert (Hfields :
    qos_profiles st4 = qos_profiles st
    /\ load_threshold st4 = load_threshold st
    /\ qos_violation_threshold st4 = qos_violation_threshold st
    /\ steering_cooldown st4 = steering_cooldown st
    /\ cell_load st4 = cell_load st
    /\ ue_cell_mapping st4 = <[ue := id]> (ue_cell_mapping st)
    /\ ue_traffic_history st4
       = <[ue := append (default (Deque.new 50) (ue_traffic_history st !! ue)) md]>
           (ue_traffic_history st)
    /\ (forall ue', ue' <> ue ->
          ue_qos_violations st4 !! ue' = ue_qos_violations st !! ue')
    /\ last_steering_time st4 = last_steering_time st).
  { rewrite Hlast. subst st3.
    destruct Hst2 as [-> | ->]; destruct Hst4 as [-> | ->]; subst st1;
      rewrite ?incr_violations_eq; simpl;
      repeat split; try reflexivity; try (intros ue' Hne);
      rewrite ?lookup_insert_ne by congruence; reflexivity. }
  destruct Hfields as (F1 & F2 & F3 & F4 & F5 & F6 & F7 & F8 & F9).
  destruct s; intros [= <- <-]; simpl.
  - refine (conj F1 (conj F2 (conj F3 (conj F4 (conj F5 (conj F6 (conj F7 _))))))).
    split; [|split; [|discriminate]].
    + intros ue' Hne. rewrite lookup_insert_ne by congruence. now apply F8.
    + intros _. destruct Hiff as [Hiff _].
      destruct (Hiff eq_refl) as (_ & Hl & _ & Hcd).
      assert (E1 : load_threshold st3 = load_threshold st).
      { rewrite <- F2. subst st3. destruct Hst4 as [-> | ->]; reflexivity. }
      assert (E2 : steering_cooldown st3 = steering_cooldown st).
      { rewrite <- F4. subst st3. destruct Hst4 as [-> | ->]; reflexivity. }
      assert (E3 : last_steering_time st3 = last_steering_time st).
      { rewrite <- F9. symmetry. exact Hlast. }
      rewrite F9. split; [rewrite <- E1; exact Hl|].
      split; [rewrite <- E2, <- E3; exact Hcd | reflexivity].
  - refine (conj F1 (conj F2 (conj F3 (conj F4 (conj F5 (conj F6 (conj F7 _))))))).
    split; [exact F8|]. split; [discriminate|]. intros _. exact F9.
Qed.

(** With a profile for every type the classifier can name, one iteration of
    the per-UE loop returns. *)
Lemma process_ue_returns (st : state) (id : string) (load : Q) (ue : Z) (md : metrics)
    (tc tr : Q) :
  profiles_cover st ->
  exists st' steer, process_ue st id load ue md tc tr = Ok (st', steer).
Proof.
  intros Hcover. unfold profiles_cover in Hcover. unfold process_ue.
  pose proof (classify_traffic_frame st ue md) as Hfr.
  pose proof (classify_traffic_range st ue md) as Hrange.
  destruct (classify_traffic st ue md) as [st1 tt].
  cbv zeta in Hfr. simpl in Hfr, Hrange. destruct Hfr as (Hq1 & _).
  rewrite <- Hq1 in Hcover.
  destruct (check_returns st1 ue tt md Hcover Hrange) as (st2 & v & Hcheck & _).
  rewrite Hcheck. cbn [mbind result_bind].
  destruct (should_steer_ue _ ue load tt tc) as [st4 [|]]; eexists _, _; reflexivity.
Qed.

Lemma length_append_succ {A : Type} (d : deque A) (x : A) :
  (length (items (append d x)) <= S (length (items d)))%nat.
Proof.
  unfold append. simpl. destruct (_ <? _)%nat.
  - destruct (items d); simpl; [lia|]. rewrite length_app. simpl. lia.
  - rewrite length_app. simpl. lia.
Qed.

(** X11. Processing the report of one UE touches the records of that UE only:
    for every other UE the stored snapshots, the violation counter, the last
    steering time and the serving cell are as before; the profiles, the
    thresholds and the recorded cell loads are as before too. *)
Theorem other_ues_untouched (st st' : state) (id : string) (load : Q) (ue ue' : Z)
    (md : metrics) (tc tr : Q) (steer : bool) :
  process_ue st id load ue md tc tr = Ok (st', steer) ->
  ue' <> ue ->
  history_of st' ue' = history_of st ue'
  /\ ue_qos_violations st' !! ue' = ue_qos_violations st !! ue'
  /\ last_steering_time st' !! ue' = last_steering_time st !! ue'
  /\ ue_cell_mapping st' !! ue' = ue_cell_mapping st !! ue'
  /\ qos_profiles st' = qos_profiles st
  /\ load_threshold st' = load_threshold st
  /\ qos_violation_threshold st' = qos_violation_threshold st
  /\ steering_cooldown st' = steering_cooldown st
  /\ cell_load st' = cell_load st.
Proof.
  intros Hp Hne.
  destruct (process_ue_spec _ _ _ _ _ _ _ _ _ Hp)
    as (F1 & F2 & F3 & F4 & F5 & F6 & F7 & F8 & Ft & Ff).
  unfold history_of. rewrite F7, F6.
  rewrite !lookup_insert_ne by congruence.
  refine (conj eq_refl (conj (F8 ue' Hne) (conj _ (conj eq_refl _)))).
  - destruct steer.
    + destruct (Ft eq_refl) as (_ & _ & ->). now rewrite lookup_insert_ne by congruence.
    + now rewrite (Ff eq_refl).
  - repeat split; assumption.
Qed.

(** UE 0 has one stored snapshot; then UE 1 reports. *)
Lemma other_ues_untouched_witness :
  let st := fst (classify_traffic init 0 starved_voice) in
  exists st',
    process_ue st "gnb1" 0.9 1 starved_voice 1200 1201 = Ok (st', false)
    /\ history_of st' 0 = [starved_voice]
    /\ ue_qos_violations st' !! 0%Z = ue_qos_violations st !! 0%Z
    /\ last_steering_time st' !! 0%Z = last_steering_time st !! 0%Z.
Proof.
  intros st.
  assert (Hrun : exists s, process_ue st "gnb1" 0.9 1 starved_voice 1200 1201 = Ok (s, false))
    by (eexists; vm_compute; reflexivity).
  destruct Hrun as [s Hs]. exists s. split; [exact Hs|].
  destruct (other_ues_untouched st s "gnb1" 0.9 1 0 starved_voice 1200 1201 false Hs)
    as (H1 & H2 & H3 & _); [lia|].
  split; [rewrite H1; reflexivity|]. split; [exact H2 | exact H3].
Defined.

(** X12. A UE with fewer than nine stored snapshots is still unclassified: its
    report is typed [unknown], so no violation is counted, and, [unknown]
    having no profile, the UE is not steered, whatever the load and the
    violation count are.  The report is stored all the same. *)
Theorem no_steering_during_warm_up (st : state) (id : string) (load : Q) (ue : Z)
    (md : metrics) (tc tr : Q) :
  (length (history_of st ue) < 9)%nat ->
  qos_profiles st !! "unknown"%string = None ->
  exists st',
    process_ue st id load ue md tc tr = Ok (st', false)
    /\ snd (classify_traffic st ue md) = "unknown"%string
    /\ violations_of st' ue = violations_of st ue
    /\ last_steering_time st' = last_steering_time st.
Proof.
  intros Hlen Hno.
  destruct (classify_traffic_eq st ue md) as (Hst1 & Hshort & _). cbv zeta in *.
  assert (Hu : snd (classify_traffic st ue md) = "unknown"%string).
  { apply Hshort.
    pose proof (length_append_succ (default (Deque.new 50) (ue_traffic_history st !! ue)) md).
    unfold history_of in Hlen.
    destruct (ue_traffic_history st !! ue); simpl in *; lia. }
  unfold process_ue.
  destruct (classify_traffic st ue md) as [st1 tt]. simpl in Hst1, Hu. subst tt.
  rewrite check_unknown. cbn [mbind result_bind].
  set (st3 := set_ue_cell_mapping st1 (<[ue := id]> (ue_cell_mapping st1))).
  pose proof (should_steer_spec st3 ue load "unknown" tc) as (Hiff & Hv & Hlast).
  destruct (should_steer_ue st3 ue load "unknown" tc) as [st4 s].
  simpl in Hiff, Hv, Hlast.
  assert (Hs : s = false).
  { destruct s; [|reflexivity]. destruct Hiff as [Hiff _].
    destruct (Hiff eq_refl) as (_ & _ & Hp & _).
    unfold priority_of in Hp. subst st3 st1. simpl in Hp. rewrite Hno in Hp. lia. }
  subst s. exists st4. split; [reflexivity|]. split; [reflexivity|].
  split; [rewrite Hv; subst st3 st1; reflexivity|].
  rewrite Hlast. subst st3 st1. reflexivity.
Qed.

(** The first report of a UE, far below every bandwidth floor, on a loaded
    cell. *)
Lemma no_steering_during_warm_up_witness :
  exists st',
    process_ue init "gnb1" 0.9 0 starved_voice 1000 1000 = Ok (st', false)
    /\ violations_of st' 0 = violations_of init 0.
Proof.
  destruct (no_steering_during_warm_up init "gnb1" 0.9 0 starved_voice 1000 1000)
    as (st' & Hp & _ & Hv & _).
  - vm_compute. lia.
  - vm_compute. reflexivity.
  - exists st'. split; [exact Hp | exact Hv].
Defined.

Lemma process_ues_spec (ues : list (Z * metrics * (Q * Q))) (st : state) (id : string)
    (load : Q) :
  profiles_cover st ->
  exists st' flags,
    process_ues st id load ues = Ok (st', flags)
    /\ map fst flags = map (fun u => fst (fst u)) ues
    /\ qos_profiles st' = qos_profiles st
    /\ load_threshold st' = load_threshold st
    /\ cell_load st' = cell_load st
    /\ (forall ue, In ue (map (fun u => fst (fst u)) ues) ->
          ue_cell_mapping st' !! ue = Some id)
    /\ (forall ue, ~ In ue (map (fun u => fst (fst u)) ues) ->
          ue_cell_mapping st' !! ue = ue_cell_mapping st !! ue)
    /\ Forall (fun f => snd f = true -> load_threshold st < load) flags.
Proof.
  revert st. induction ues as [|[[ue md] [tc tr]] rest IH]; intros st Hcover.
  { exists st, []. simpl. repeat split; try reflexivity; try tauto. constructor. }
  cbn [process_ues].
  destruct (process_ue_returns st id load ue md tc tr Hcover) as (st1 & steer & Hp).
  rewrite Hp. cbn [mbind result_bind].
  destruct (process_ue_spec _ _ _ _ _ _ _ _ _ Hp)
    as (F1 & F2 & _ & _ & F5 & F6 & _ & _ & Ft & _).
  assert (Hcover1 : profiles_cover st1).
  { unfold profiles_cover in *. now rewrite F1. }
  destruct (IH st1 Hcover1) as (st' & flags & Hr & Hm & G1 & G2 & G5 & Gin & Gout & Gf).
  rewrite Hr. eexists st', _. split; [reflexivity|].
  cbn [map fst snd]. split; [now rewrite Hm|].
  split; [now rewrite G1|]. split; [now rewrite G2|]. split; [now rewrite G5|].
  split; [|split].
  - intros ue' [<- | Hin]; [|now apply Gin].
    destruct (in_dec Z.eq_dec ue (map (fun u => fst (fst u)) rest)) as [Hin|Hout].
    + now apply Gin.
    + rewrite (Gout ue Hout), F6. apply lookup_insert_eq.
  - intros ue' Hout. rewrite Gout by (intros H; apply Hout; now right).
    rewrite F6. apply lookup_insert_ne. intros ->. apply Hout. now left.
  - constructor.
    + cbn [snd]. intros ->. now destruct (Ft eq_refl).
    + rewrite F2 in Gf. exact Gf.
Qed.

(** The callback on one reported UE answers for that UE. *)
Lemma single_ue_answer (st : state) (id : string) (measData : option metrics)
    (u : list (Z * metrics * (Q * Q))) (st' : state) (flags : list (Z * bool)) :
  length u = 1%nat ->
  my_subscription_callback st id measData (Some u) = Ok (st', flags) ->
  exists b, flags = [(fst (fst (List.hd (0%Z, ∅, (0, 0)) u)), b)].
Proof.
  destruct u as [|[[ue md] [tc tr]] [|]]; try discriminate. intros _.
  unfold my_subscription_callback.
  destruct (evaluate_cell_load st id (default ∅ measData)) as [st1 load].
  cbn [process_ues].
  destruct (process_ue st1 id load ue md tc tr) as [[s b]|e]; [|discriminate].
  cbn [mbind result_bind]. intros [= <- <-]. now exists b.
Qed.

(** X13. With a profile for every type the classifier can name, the callback
    returns on every indication: it answers for each reported UE, in the
    order of the report, records the evaluated load for the cell and the
    cell as the serving cell of every reported UE, and keeps the profiles. *)
Theorem callback_returns (st : state) (id : string) (measData : option metrics)
    (ueMeasData : option (list (Z * metrics * (Q * Q)))) :
  profiles_cover st ->
  exists st' flags,
    my_subscription_callback st id measData ueMeasData = Ok (st', flags)
    /\ map fst flags = map (fun u => fst (fst u)) (default [] ueMeasData)
    /\ cell_load st' !! id
       = Some (snd (evaluate_cell_load st id (default ∅ measData)))
    /\ (forall ue, In ue (map fst flags) -> ue_cell_mapping st' !! ue = Some id)
    /\ profiles_cover st'.
Proof.
  intros Hcover. unfold my_subscription_callback.
  rewrite evaluate_cell_load_eq. cbv zeta. cbn [snd].
  set (load := match load_indicators (default ∅ measData) with
               | [] => 0.0
               | _ => np_mean (load_indicators (default ∅ measData))
               end).
  set (st1 := set_cell_load st (<[id := load]> (cell_load st))).
  destruct ueMeasData as [ues|]; cbn [default].
  - destruct (process_ues_spec ues st1 id load Hcover)
      as (st' & flags & Hr & Hm & G1 & _ & G5 & Gin & _).
    exists st', flags. split; [exact Hr|]. split; [exact Hm|].
    split; [rewrite G5; subst st1; simpl; apply lookup_insert_eq|].
    split; [rewrite Hm; exact Gin|].
    unfold profiles_cover in *. now rewrite G1.
  - exists st1, []. split; [reflexivity|]. split; [reflexivity|].
    split; [subst st1; simpl; apply lookup_insert_eq|].
    split; [intros ue []|exact Hcover].
Qed.

(** An indication with cell-level throughput and two UEs. *)
Lemma callback_returns_witness :
  exists st' flags,
    my_subscription_callback init "gnb1"
      (Some (<["DRB.UEThpDl" := [500]]> ∅))
      (Some [(0%Z, starved_voice, (1000, 1000)); (1%Z, steady_30, (1000, 1000))])
    = Ok (st', flags)
    /\ map fst flags = [0%Z; 1%Z]
    /\ ue_cell_mapping st' !! 1%Z = Some "gnb1"%string.
Proof.
  destruct (callback_returns init "gnb1" (Some (<["DRB.UEThpDl" := [500]]> ∅))
              (Some [(0%Z, starved_voice, (1000, 1000)); (1%Z, steady_30, (1000, 1000))]))
    as (st' & flags & Hr & Hm & _ & Hin & _).
  - unfold profiles_cover.
    repeat (constructor; [eexists; vm_compute; reflexivity|]). constructor.
  - exists st', flags. split; [exact Hr|]. split; [exact Hm|].
    apply Hin. rewrite Hm. simpl. tauto.
Defined.

(** X14. An indication whose cell-level part carries none of the three load
    metrics (or that has no cell-level part at all) steers nobody: the load
    evaluates to 0.0, which no non-negative load threshold lies below,
    whatever the violation counts of the reported UEs are. *)
Theorem no_steering_without_cell_metrics (st : state) (id : string)
    (measData : option metrics) (ueMeasData : option (list (Z * metrics * (Q * Q)))) :
  profiles_cover st ->
  0 <= load_threshold st ->
  no_load_metrics measData ->
  exists st' flags,
    my_subscription_callback st id measData ueMeasData = Ok (st', flags)
    /\ cell_load st' !! id = Some 0.0
    /\ Forall (fun f => snd f = false) flags.
Proof.
  intros Hcover Hth Hno. unfold my_subscription_callback.
  assert (Hnil : load_indicators (default ∅ measData) = []).
  { apply load_indicators_nil. destruct measData as [m|]; [now apply Hno|].
    cbn [default]. rewrite !lookup_empty. repeat split. }
  rewrite evaluate_cell_load_eq, Hnil. cbv zeta.
  set (st1 := set_cell_load st (<[id := 0.0]> (cell_load st))).
  destruct ueMeasData as [ues|].
  - destruct (process_ues_spec ues st1 id 0.0 Hcover)
      as (st' & flags & Hr & _ & _ & _ & G5 & _ & _ & Gf).
    exists st', flags. split; [exact Hr|].
    split; [rewrite G5; subst st1; simpl; apply lookup_insert_eq|].
    eapply Forall_impl; [exact Gf|].
    intros [ue [|]] H; [|reflexivity]. cbn [snd] in *.
    specialize (H eq_refl). subst st1. simpl in H. exfalso.
    assert (H0 : 0.0 == 0) by reflexivity. rewrite H0 in H. lra.
  - exists st1, []. split; [reflexivity|].
    split; [subst st1; simpl; apply lookup_insert_eq | constructor].
Qed.

(** An indication with one UE and no cell-level part. *)
Lemma no_steering_without_cell_metrics_witness :
  exists st',
    my_subscription_callback init "gnb1" None (Some [(0%Z, starved_voice, (1033, 1033))])
    = Ok (st', [(0%Z, false)])
    /\ cell_load st' !! "gnb1"%string = Some 0.0.
Proof.
  destruct (no_steering_without_cell_metrics init "gnb1" None
              (Some [(0%Z, starved_voice, (1033, 1033))]))
    as (st' & flags & Hr & Hc & Hf).
  - unfold profiles_cover.
    repeat (constructor; [eexists; vm_compute; reflexivity|]). constructor.
  - vm_compute. discriminate.
  - intros m [=].
  - exists st'. split; [|exact Hc].
    destruct (single_ue_answer init "gnb1" None
                [(0%Z, starved_voice, (1033, 1033))] st' flags eq_refl Hr) as [b Hb].
    simpl in Hb. subst flags. inversion Hf as [|? ? Hb _]. simpl in Hb. subst b.
    exact Hr.
Defined.

(** X15. Steering of one UE is rate limited over any run of reports: each
    recommendation is decided at least [steering_cooldown] after the time
    recorded at the one before it, the first at least [steering_cooldown]
    after the steering time stored before the run (0 when there is none). *)
Theorem steerings_are_spaced (samples : list (metrics * Q * (Q * Q))) (st : state)
    (id : string) (ue : Z) :
  profiles_cover st ->
  exists st' steers,
    process_samples st id ue samples = Ok (st', steers)
    /\ length steers = length samples
    /\ steer_spaced (steering_cooldown st) (default 0 (last_steering_time st !! ue))
         (steer_times samples steers).
Proof.
  revert st. induction samples as [|[[md load] [tc tr]] rest IH]; intros st Hcover.
  { exists st, []. repeat split. }
  cbn [process_samples].
  destruct (process_ue_returns st id load ue md tc tr Hcover) as (st1 & steer & Hp).
  rewrite Hp. cbn [mbind result_bind].
  destruct (process_ue_spec _ _ _ _ _ _ _ _ _ Hp)
    as (F1 & _ & _ & F4 & _ & _ & _ & _ & Ft & Ff).
  assert (Hcover1 : profiles_cover st1).
  { unfold profiles_cover in *. now rewrite F1. }
  destruct (IH st1 Hcover1) as (st' & steers & Hr & Hlen & Hsp).
  rewrite Hr. eexists st', _. split; [reflexivity|].
  split; [simpl; now rewrite Hlen|].
  rewrite F4 in Hsp. cbn [steer_times]. destruct steer.
  - destruct (Ft eq_refl) as (_ & Hcd & Hl). rewrite Hl, lookup_insert_eq in Hsp.
    split; [exact Hcd | exact Hsp].
  - rewrite (Ff eq_refl) in Hsp. exact Hsp.
Qed.

(** [starved_run] from the initial state: one steering, at t = 1033. *)
Lemma steerings_are_spaced_witness :
  exists st' steers,
    process_samples init "gnb1" 0 starved_run = Ok (st', steers)
    /\ steer_times starved_run steers = [(1033, 1033)]
    /\ steer_spaced (steering_cooldown init) 0 (steer_times starved_run steers).
Proof.
  destruct (steerings_are_spaced starved_run init "gnb1" 0)
    as (st' & steers & Hr & _ & Hsp).
  - unfold profiles_cover.
    repeat (constructor; [eexists; vm_compute; reflexivity|]). constructor.
  - exists st', steers. split; [exact Hr|]. split; [|exact Hsp].
    assert (Hrun : exists s, process_samples init "gnb1" 0 starved_run
                             = Ok (s, [false; false; false; false; false; false; false;
                                       false; false; false; false; true; false; false]))
      by (eexists; vm_compute; reflexivity).
    destruct Hrun as [s Hs]. rewrite Hr in Hs. injection Hs as _ ->.
    reflexivity.
Defined.

(** X16. Past the first three rules the classifier has two more bands with a gap
    between them: with ten stored snapshots, both directions reported and
    none of the voice, video and gaming rules matching, the type is
    [file_transfer] exactly when the average downlink throughput is above
    50, and [unknown] exactly when it is at most 1 or between 20 and 50
    (bounds included). *)
Theorem classify_file_transfer_and_gap (st : state) (ue : Z) (md : metrics) :
  let d' := append (default (Deque.new 50) (ue_traffic_history st !! ue)) md in
  let dl := collect "DRB.UEThpDl" (last_n 10 (items d')) in
  let ul := collect "DRB.UEThpUl" (last_n 10 (items d')) in
  (10 <= length (items d'))%nat -> dl <> [] -> ul <> [] ->
  ~ voice_rule (np_mean dl) (np_mean ul) (var_or_zero dl) (var_or_zero ul) ->
  ~ video_rule (np_mean dl) (var_or_zero dl) ->
  ~ gaming_rule (np_mean ul) (var_or_zero ul) ->
  (snd (classify_traffic st ue md) = "file_transfer"%string <-> 50 < np_mean dl)
  /\ (snd (classify_traffic st ue md) = "unknown"%string
      <-> np_mean dl <= 1 \/ (20 <= np_mean dl /\ np_mean dl <= 50)).
Proof.
  intros d' dl ul Hlen Hdl Hul Hv Hvi Hg.
  destruct (classify_traffic_eq st ue md) as (_ & _ & _ & Hr). cbv zeta in Hr.
  rewrite (Hr Hlen Hdl Hul). fold d' dl ul. unfold classify_rules.
  apply (proj2 (not_iff_compat (voice_rule_iff _ _ _ _))) in Hv.
  apply (proj2 (not_iff_compat (video_rule_iff _ _))) in Hvi.
  apply (proj2 (not_iff_compat (gaming_rule_iff _ _))) in Hg.
  apply not_true_is_false in Hv, Hvi, Hg. rewrite Hv, Hvi, Hg.
  destruct (ltb 1 (np_mean dl)) eqn:E1; destruct (ltb (np_mean dl) 20) eqn:E2;
    destruct (ltb 50 (np_mean dl)) eqn:E3; simpl;
    repeat match goal with
           | E : ltb _ _ = true |- _ => apply ltb_lt in E
           | E : ltb _ _ = false |- _ => apply ltb_ge in E
           end;
    (split; split; intros H; try discriminate H; try reflexivity; try lra;
     try (exfalso; lra); try (destruct H as [H|[H H']]; exfalso; lra);
     try (left; lra); try (right; lra)).
Qed.

(** Ten reports of 30 down and 1 up: past the web band, short of the
    file-transfer band. *)
Lemma classify_file_transfer_and_gap_witness :
  let st := classify_many init 0 (replicate 9 steady_30) in
  snd (classify_traffic st 0 steady_30) = "unknown"%string.
Proof.
  intros st.
  destruct (classify_file_transfer_and_gap st 0 steady_30) as (_ & H).
  - vm_compute. lia.
  - vm_compute. discriminate.
  - vm_compute. discriminate.
  - rewrite <- voice_rule_iff. vm_compute. discriminate.
  - rewrite <- video_rule_iff. vm_compute. discriminate.
  - rewrite <- gaming_rule_iff. vm_compute. discriminate.
  - apply H. right. split; vm_compute; discriminate.
Defined.


End SteererCallbackFacts.

(** ** ml_resource_optimizer.py: properties of the callback *)

Section MLCallbackFacts.

Import Py Deque MLOptimizer MLCallback.

Variable regress : list (list Q) -> list Q -> list Q -> Q.
Variable control : string -> Z -> Q -> Q -> bool.

Local Abbreviation step := (process_ue regress control).

(** X17. [predict_handover_need] never answers yes: untrained, or without stored
    snapshots, it answers no; trained and with stored snapshots it raises in
    the feature extraction, before the classifier is asked. *)
Theorem handover_never_predicted (ho_classes : option nat) (ho_probability : list Q -> Q)
    (st : state) (ue : Z) (md : metrics) :
  predict_handover_need ho_classes ho_probability st ue md = Ok false
  \/ exists e, predict_handover_need ho_classes ho_probability st ue md = Raise e.
Proof.
  unfold predict_handover_need.
  destruct (model_trained st); simpl; [|now left].
  destruct (ue_metrics_history st !! ue) as [d|]; [|now left].
  destruct (Nat.ltb_spec 0 (length (items d))) as [H|H]; [|now left].
  destruct (extract_features_raises d md) as [e He].
  { destruct (items d); [simpl in H; lia | discriminate]. }
  right. exists e. rewrite He. reflexivity.
Qed.

Lemma train_keeps_data (st : state) :
  ue_metrics_history (fst (train_models st)) = ue_metrics_history st
  /\ training_data_X (fst (train_models st)) = training_data_X st
  /\ training_data_y_prb (fst (train_models st)) = training_data_y_prb st
  /\ training_data_y_ho (fst (train_models st)) = training_data_y_ho st
  /\ max_history_length (fst (train_models st)) = max_history_length st
  /\ max_prb_ratio_high (fst (train_models st)) = max_prb_ratio_high st.
Proof. unfold train_models. destruct (_ <? _)%nat; repeat split. Qed.

(** What [update_metrics_history] stores and what it keeps. *)
Lemma update_spec (st : state) (ue : Z) (md : metrics) :
  let st1 := update_metrics_history st ue md in
  ue_metrics_history st1
  = <[ue := append (default (Deque.new (max_history_length st))
                      (ue_metrics_history st !! ue)) md]> (ue_metrics_history st)
  /\ training_data_X st1 = training_data_X st
  /\ training_data_y_prb st1 = training_data_y_prb st
  /\ training_data_y_ho st1 = training_data_y_ho st
  /\ max_history_length st1 = max_history_length st
  /\ max_prb_ratio_high st1 = max_prb_ratio_high st
  /\ (training_data_X st = [] -> model_trained st1 = model_trained st).
Proof.
  unfold update_metrics_history.
  set (d := match ue_metrics_history st !! ue with
            | Some d => d
            | None => Deque.new (max_history_length st)
            end).
  assert (Hd : d = default (Deque.new (max_history_length st)) (ue_metrics_history st !! ue)).
  { subst d. now destruct (ue_metrics_history st !! ue). }
  rewrite <- Hd.
  set (st1 := set_ue_metrics_history st _).
  cbv zeta. destruct (_ && _) eqn:E.
  - destruct (train_keeps_data st1) as (T1 & T2 & T3 & T4 & T5 & T6).
    rewrite T1, T2, T3, T4, T5, T6. subst st1. simpl.
    repeat split. intros Hnil. simpl in E. rewrite Hnil in E. discriminate E.
  - subst st1. simpl. repeat split.
Qed.

Lemma append_nonempty {A : Type} (d : deque A) (x : A) :
  (0 < maxlen d)%nat -> items (append d x) <> [].
Proof.
  intros Hm H. pose proof (last_append d x Hm) as Hl. rewrite H in Hl. discriminate Hl.
Qed.

(** After the update the UE has a window, and it is not empty. *)
Lemma update_stores (st : state) (ue : Z) (md : metrics) :
  windows_hold st ->
  exists d, ue_metrics_history (update_metrics_history st ue md) !! ue = Some d
            /\ last (items d) = Some md /\ items d <> [].
Proof.
  intros [Hmax Hall].
  destruct (update_spec st ue md) as (H & _). cbv zeta in H. rewrite H.
  rewrite lookup_insert_eq. eexists. split; [reflexivity|].
  assert (Hm : (0 < maxlen (default (Deque.new (max_history_length st))
                              (ue_metrics_history st !! ue)))%nat).
  { destruct (ue_metrics_history st !! ue) as [d|] eqn:E; simpl; [now apply (Hall ue)|exact Hmax]. }
  split; [now apply last_append | now apply append_nonempty].
Qed.

Lemma update_windows_hold (st : state) (ue : Z) (md : metrics) :
  windows_hold st -> windows_hold (update_metrics_history st ue md).
Proof.
  intros [Hmax Hall].
  destruct (update_spec st ue md) as (H & _ & _ & _ & Hlen & _). cbv zeta in H, Hlen.
  split; [now rewrite Hlen|].
  intros ue' d. rewrite H. destruct (decide (ue' = ue)) as [->|Hne].
  - rewrite lookup_insert_eq. intros [= <-]. rewrite append_maxlen.
    destruct (ue_metrics_history st !! ue) as [d0|] eqn:E; simpl; [now apply (Hall ue)|exact Hmax].
  - rewrite lookup_insert_ne by congruence. apply Hall.
Qed.

(** With a non-empty window stored for the UE, collecting raises and
    nothing is recorded. *)
Lemma collect_raises (st : state) (ue : Z) (md : metrics) (prb : Q) (ho : Z)
    (d : deque metrics) :
  ue_metrics_history st !! ue = Some d -> items d <> [] ->
  exists e, collect_training_data st ue md prb ho = Raise e.
Proof.
  intros Hd Hne. unfold collect_training_data. rewrite Hd.
  destruct (extract_features_raises d md Hne) as [e He]. rewrite He. now exists e.
Qed.

(** X18. The body of the per-UE loop never runs to its end: whatever the
    optimizer has learnt and whatever the report is, it stores the report
    and then raises, at the latest when it collects the training sample;
    the training data are left as they were. *)
Theorem report_never_completes (st : state) (id : string) (ue : Z) (md : metrics) :
  windows_hold st ->
  (forall p, snd (step st id ue md) <> Returned p)
  /\ last (history_of (fst (step st id ue md)) ue) = Some md
  /\ training_data_X (fst (step st id ue md)) = training_data_X st
  /\ training_data_y_prb (fst (step st id ue md)) = training_data_y_prb st
  /\ training_data_y_ho (fst (step st id ue md)) = training_data_y_ho st.
Proof.
  intros Hw.
  destruct (update_stores st ue md Hw) as (d & Hd & Hlast & Hne).
  destruct (update_spec st ue md) as (_ & T1 & T2 & T3 & _). cbv zeta in T1, T2, T3.
  assert (Hfst : fst (step st id ue md) = update_metrics_history st ue md).
  { unfold process_ue.
    destruct (predict_prb_setting regress _ ue md) as [p|e]; [|reflexivity].
    destruct (control id ue _ p); [|reflexivity].
    destruct (collect_raises _ ue md p 0 d Hd Hne) as [e He]. now rewrite He. }
  rewrite Hfst. unfold history_of. rewrite Hd.
  split; [|repeat split; assumption].
  intros p. unfold process_ue.
  destruct (predict_prb_setting regress _ ue md) as [p'|e]; [|discriminate].
  destruct (control id ue _ p'); [|discriminate].
  destruct (collect_raises _ ue md p' 0 d Hd Hne) as [e He]. rewrite He. discriminate.
Qed.

(** One report on an optimizer that has not learnt anything: the prediction
    is the default, the control request is issued with it, and the body
    raises, leaving the optimizer as untrained as before. *)
Lemma step_untrained (st : state) (id : string) (ue : Z) (md : metrics) :
  untrained st ->
  untrained (fst (step st id ue md))
  /\ max_prb_ratio_high (fst (step st id ue md)) = max_prb_ratio_high st
  /\ raised_after (max_prb_ratio_high st) (snd (step st id ue md)).
Proof.
  intros (Ht & Hx & Hw).
  destruct (update_stores st ue md Hw) as (d & Hd & _ & Hne).
  destruct (update_spec st ue md) as (_ & T1 & _ & _ & _ & Thigh & Ttr).
  cbv zeta in T1, Thigh, Ttr.
  pose proof (update_windows_hold st ue md Hw) as Hw1.
  assert (Ht1 : model_trained (update_metrics_history st ue md) = false).
  { rewrite (Ttr Hx). exact Ht. }
  unfold process_ue.
  rewrite (predict_default regress _ ue md (or_introl Ht1)), Thigh.
  destruct (control id ue _ (max_prb_ratio_high st)).
  - destruct (collect_raises _ ue md (max_prb_ratio_high st) 0 d Hd Hne) as [e He].
    rewrite He. simpl. split; [|split; [exact Thigh|right; now exists e]].
    split; [exact Ht1|]. split; [now rewrite T1 | exact Hw1].
  - simpl. split; [|split; [exact Thigh|now left]].
    split; [exact Ht1|]. split; [now rewrite T1 | exact Hw1].
Qed.

Lemma callback_untrained (st : state) (id : string) (ueMeasData : option (list (Z * metrics))) :
  untrained st ->
  untrained (fst (my_subscription_callback regress control st id ueMeasData))
  /\ max_prb_ratio_high (fst (my_subscription_callback regress control st id ueMeasData))
     = max_prb_ratio_high st
  /\ (snd (my_subscription_callback regress control st id ueMeasData) = []
      \/ exists r, snd (my_subscription_callback regress control st id ueMeasData) = [r]
                   /\ raised_after (max_prb_ratio_high st) r).
Proof.
  intros Hu. destruct ueMeasData as [[|[ue md] rest]|]; simpl;
    try (split; [exact Hu | split; [reflexivity | now left]]).
  destruct (step_untrained st id ue md Hu) as (Hu1 & Hh & Hr).
  destruct (step st id ue md) as [st1 r]. simpl in Hu1, Hh, Hr.
  destruct Hr as [-> | [e ->]]; simpl.
  - split; [exact Hu1|]. split; [exact Hh|]. right. eexists. split; [reflexivity|now left].
  - split; [exact Hu1|]. split; [exact Hh|]. right. eexists. split; [reflexivity|].
    right. now exists e.
Qed.

Lemma init_untrained : untrained init.
Proof.
  split; [reflexivity|]. split; [reflexivity|]. split; [simpl; lia|].
  intros ue d H. simpl in H. rewrite lookup_empty in H. discriminate H.
Qed.

Lemma run_untrained (indications : list (string * option (list (Z * metrics)))) (st : state) :
  untrained st ->
  untrained (fst (run regress control st indications))
  /\ Forall (fun outs => outs = []
                         \/ exists r, outs = [r] /\ raised_after (max_prb_ratio_high st) r)
       (snd (run regress control st indications)).
Proof.
  revert st. induction indications as [|[id ues] rest IH]; intros st Hu.
  { simpl. split; [exact Hu | constructor]. }
  cbn [run].
  destruct (callback_untrained st id ues Hu) as (Hu1 & Hh & Hr).
  destruct (my_subscription_callback regress control st id ues) as [st1 r].
  simpl in Hu1, Hh, Hr.
  destruct (IH st1 Hu1) as (Hu2 & Hf).
  destruct (run regress control st1 rest) as [st2 rs]. simpl in *.
  split; [exact Hu2|]. constructor; [exact Hr|]. rewrite Hh in Hf. exact Hf.
Qed.

(** X19. Started fresh, the optimizer never learns: whatever indications arrive
    and whatever the control call does, no training sample is ever recorded
    and the models are never trained; each indication that reports a UE
    handles the first UE only, issues for it the control request with the
    default maximum 100, and then ends in an exception. *)
Theorem fresh_optimizer_never_learns
    (indications : list (string * option (list (Z * metrics)))) :
  model_trained (fst (run regress control init indications)) = false
  /\ training_data_X (fst (run regress control init indications)) = []
  /\ Forall (fun outs => outs = [] \/ exists r, outs = [r] /\ raised_after 100 r)
       (snd (run regress control init indications)).
Proof.
  destruct (run_untrained indications init init_untrained) as ((Ht & Hx & _) & Hf).
  split; [exact Ht|]. split; [exact Hx | exact Hf].
Qed.

End MLCallbackFacts.

Section MLCallbackExamples.

Import Py Deque MLOptimizer MLCallback.

(** The first report of UE 0 on the fresh optimizer, with a control call
    that returns: the request goes out with the default maximum and the
    collection of the training sample raises. *)
Lemma report_never_completes_witness :
  let r := process_ue (fun _ _ _ => 50) (fun _ _ _ _ => true) init "gnb1" 0 report in
  snd r = RaisedAfterControl 100 TypeError
  /\ last (history_of (fst r) 0) = Some report
  /\ training_data_X (fst r) = [].
Proof.
  intros r.
  assert (Hw : windows_hold init).
  { split; [simpl; lia|]. intros ue d H. simpl in H. rewrite lookup_empty in H.
    discriminate H. }
  destruct (report_never_completes (fun _ _ _ => 50) (fun _ _ _ _ => true)
              init "gnb1" 0 report Hw) as (_ & Hl & Hx & _).
  split; [vm_compute; reflexivity|]. split; [exact Hl | exact Hx].
Defined.

End MLCallbackExamples.
